(** * Date tasks (04-date-tasks.js): a shallow embedding and its properties

    The module under study is five small functions over JavaScript [Date]
    values.  The functions themselves are a few lines each; what they rely on
    is the host: the arithmetic of Numbers, the conversions between Numbers
    and Strings, and the calendar arithmetic of [Date].  The first part of
    this file models that host, following ECMA-262; the second part embeds
    the five functions line by line; the third part writes down what the
    specification says of them, where that is a computation of its own;
    the last parts state and prove what holds. *)

From Stdlib Require Import ZArith List String Ascii Bool Lia.
From Stdlib Require Import DecimalString DecimalZ DecimalPos.
From Stdlib Require Import Floats Uint63.
Import ListNotations.

Local Open Scope string_scope.
Local Open Scope Z_scope.

(* ================================================================== *)
(** * Part I: the host *)
(* ================================================================== *)

(** ** Integer-valued Numbers

    Every Number that [timeSpanToString] and the calendar functions handle
    is an integer-valued binary64 of magnitude below 2^54, except for the
    quotients that are handed to [toFixed(0)] at once.  Such Numbers are
    modelled by [Z]; the places where binary64 would round are written
    out. *)

Module Num.

(** The largest magnitude up to which every integer is a binary64. *)
Definition two53 : Z := 2 ^ 53.

(** Rounding of an integer of magnitude below 2^54 to binary64, ties to
    even: up to 2^53 every integer is representable; above, the
    representable ones are the even integers, and an odd one lies midway
    between two of them, of which the one with the even significand (a
    multiple of 4) is taken. *)
Definition round64 (z : Z) : Z :=
  if Z.abs z <=? two53 then z
  else if Z.even z then z
  else if Z.even (z / 2) then 2 * (z / 2) else 2 * (z / 2) + 2.

(** [a - b] on integer-valued Numbers. *)
Definition sub (a b : Z) : Z := round64 (a - b).

(** [a % b]: the remainder takes the sign of the dividend, and is exact. *)
Definition rem (a b : Z) : Z := Z.rem a b.

(** [Number::toString] of an integer-valued Number below 1e21 in
    magnitude: its decimal digits, with a leading minus sign when it is
    negative.  (Negative zero prints as ["0"], as zero does.) *)
Definition toString (z : Z) : string := NilZero.string_of_int (Z.to_int z).

(** [(a / b).toFixed(0)] for integers [a] and [b > 0].  [toFixed(0)]
    prints the integer [n] for which [n - x] is closest to zero, the
    larger one when there are two, after it has moved the sign of a
    negative [x] into the string; so a small negative quotient prints as
    ["-0"].  The quotient itself is a rounded binary64, but for the
    dividends at hand (below 2^44) and the divisors 60 and 3600 it is
    within 2^-10 of the exact quotient while an exact quotient that is not
    a tie is at least 1/3600 away from one, and ties are representable:
    rounding the exact quotient gives the same integer. *)
Definition nearest (a b : Z) : Z := (2 * a + b) / (2 * b).

Definition div_toFixed0 (a b : Z) : string :=
  if a <? 0 then "-" ++ toString (nearest (- a) b)
  else toString (nearest a b).

(** [ToNumber] of a String, restricted to what the source applies it to:
    an optionally signed run of decimal digits.  [None] stands for the
    cases outside this fragment. *)
Definition ofString (s : string) : option Z :=
  option_map Z.of_int (NilZero.int_of_string s).

End Num.

(** A JavaScript value of the two types that meet in [timeSpanToString]. *)
Inductive value : Type :=
| VNum (n : Z)
| VStr (s : string).

(** [ToString], as a template literal applies it to a substitution. *)
Definition ToString (v : value) : string :=
  match v with
  | VNum n => Num.toString n
  | VStr s => s
  end.

(** [ToNumber]; [None] is NaN. *)
Definition ToNumber (v : value) : option Z :=
  match v with
  | VNum n => Some n
  | VStr s => Num.ofString s
  end.

(** [v < k] for a Number [k]: the operands are compared as Numbers, and a
    comparison with NaN is false. *)
Definition js_lt (v : value) (k : Z) : bool :=
  match ToNumber v with
  | Some n => n <? k
  | None => false
  end.

(** [s * k] for a String [s]: the String is converted to a Number first.
    A String that holds no number would give NaN; the source multiplies
    only what [toFixed(0)] has printed, which holds one
    ([js_mul_toFixed0] below), so that case is not modelled further. *)
Definition js_mul (s : string) (k : Z) : Z :=
  match Num.ofString s with
  | Some n => n * k
  | None => 0
  end.

(** ** Time values and calendar arithmetic (ECMA-262, Date objects)

    A time value is a whole number of milliseconds since the epoch,
    1970-01-01T00:00:00Z, of magnitude at most 8.64e15, or NaN.  A finite
    time value is a [Z]; a possibly NaN one is an [option Z], with [None]
    for NaN.  A [Date] object is its time value. *)

Definition Date : Type := option Z.

(** Sequencing of computations on Numbers that may be NaN: an operation
    with a NaN operand yields NaN. *)
Definition nan_bind {A B : Type} (x : option A) (f : A -> option B) : option B :=
  match x with
  | Some a => f a
  | None => None
  end.

Notation "'let*' x ':=' e 'in' k" := (nan_bind e (fun x => k))
  (at level 10, x name, e at level 100, k at level 200).

Module Time.

Definition msPerSecond : Z := 1000.
Definition msPerMinute : Z := 60000.
Definition msPerHour : Z := 3600000.
Definition msPerDay : Z := 86400000.

(** The largest magnitude of a time value: 100,000,000 days. *)
Definition maxTime : Z := 8640000000000000.

Definition Day (t : Z) : Z := t / msPerDay.
Definition TimeWithinDay (t : Z) : Z := t mod msPerDay.

Definition isLeap (y : Z) : bool :=
  if negb (y mod 4 =? 0) then false
  else if negb (y mod 100 =? 0) then true
  else if negb (y mod 400 =? 0) then false
  else true.

Definition DaysInYear (y : Z) : Z := if isLeap y then 366 else 365.

Definition DayFromYear (y : Z) : Z :=
  365 * (y - 1970) + (y - 1969) / 4 - (y - 1901) / 100 + (y - 1601) / 400.

Definition TimeFromYear (y : Z) : Z := msPerDay * DayFromYear y.

(** The year a day number falls in.  ECMA-262 defines it as the largest
    [y] with [DayFromYear y <= d]; this is the usual way to compute it,
    by cycles of 400 years (146097 days) counted from 1601, centuries
    (36524 days, the fourth one a day longer), groups of four years (1461
    days) and years; [YearFromDay_spec] below shows that it is that
    year. *)
Definition YearFromDay (d : Z) : Z :=
  let n := d - DayFromYear 1601 in
  let q := n / 146097 in
  let r := n mod 146097 in
  let c := Z.min (r / 36524) 3 in
  let r100 := r - c * 36524 in
  let b := r100 / 1461 in
  let r4 := r100 - b * 1461 in
  let a := Z.min (r4 / 365) 3 in
  1601 + 400 * q + 100 * c + 4 * b + a.

Definition YearFromTime (t : Z) : Z := YearFromDay (Day t).

Definition InLeapYear (t : Z) : Z :=
  if isLeap (YearFromTime t) then 1 else 0.

Definition DayWithinYear (t : Z) : Z := Day t - DayFromYear (YearFromTime t).

(** The number of days of the year before month [m] (0 = January), in a
    year with [l] leap days. *)
Definition monthStart (m l : Z) : Z :=
  match m with
  | 0 => 0
  | 1 => 31
  | 2 => 59 + l
  | 3 => 90 + l
  | 4 => 120 + l
  | 5 => 151 + l
  | 6 => 181 + l
  | 7 => 212 + l
  | 8 => 243 + l
  | 9 => 273 + l
  | 10 => 304 + l
  | _ => 334 + l
  end.

(** The month of day [d] of a year with [l] leap days. *)
Definition monthOfDay (d l : Z) : Z :=
  if d <? 31 then 0
  else if d <? 59 + l then 1
  else if d <? 90 + l then 2
  else if d <? 120 + l then 3
  else if d <? 151 + l then 4
  else if d <? 181 + l then 5
  else if d <? 212 + l then 6
  else if d <? 243 + l then 7
  else if d <? 273 + l then 8
  else if d <? 304 + l then 9
  else if d <? 334 + l then 10
  else 11.

Definition MonthFromTime (t : Z) : Z :=
  monthOfDay (DayWithinYear t) (InLeapYear t).

Definition DateFromTime (t : Z) : Z :=
  DayWithinYear t - monthStart (MonthFromTime t) (InLeapYear t) + 1.

Definition WeekDay (t : Z) : Z := (Day t + 4) mod 7.

Definition HourFromTime (t : Z) : Z := (t / msPerHour) mod 24.
Definition MinFromTime (t : Z) : Z := (t / msPerMinute) mod 60.
Definition SecFromTime (t : Z) : Z := (t / msPerSecond) mod 60.
Definition msFromTime (t : Z) : Z := t mod msPerSecond.

Definition MakeTime (hour min sec ms : Z) : Z :=
  hour * msPerHour + min * msPerMinute + sec * msPerSecond + ms.

(** ECMA-262 asks for the day number of the first day of month [mn] of
    year [ym], plus [date - 1]; [MakeDay_first] below shows that this is
    that day. *)
Definition MakeDay (year month date : Z) : Z :=
  let ym := year + month / 12 in
  let mn := month mod 12 in
  DayFromYear ym + monthStart mn (if isLeap ym then 1 else 0) + date - 1.

Definition MakeDate (day time : Z) : Z := day * msPerDay + time.

Definition TimeClip (time : Z) : option Z :=
  if maxTime <? Z.abs time then None else Some time.

End Time.

(** ** Decimal fields of fixed width *)

Module Text.

Definition digitChar (d : Z) : ascii := ascii_of_nat (48 + Z.to_nat d).

Definition digitVal (c : ascii) : option Z :=
  let n := Z.of_nat (nat_of_ascii c) in
  if (48 <=? n) && (n <=? 57) then Some (n - 48) else None.

(** The last [w] decimal digits of [n], most significant first. *)
Fixpoint fixed (w : nat) (n : Z) : string :=
  match w with
  | O => EmptyString
  | S w' => String (digitChar ((n / 10 ^ Z.of_nat w') mod 10)) (fixed w' n)
  end.

(** [ToZeroPaddedDecimalString(n, w)] for [n >= 0]: the decimal digits of
    [n], with zeros in front up to the width [w]. *)
Definition ToZeroPaddedDecimalString (n : Z) (w : nat) : string :=
  if n <? 10 ^ Z.of_nat w then fixed w n else Num.toString n.

(** Reads exactly [w] decimal digits. *)
Fixpoint digits (w : nat) (s : string) (acc : Z) : option (Z * string) :=
  match w with
  | O => Some (acc, s)
  | S w' =>
      match s with
      | String c r =>
          match digitVal c with
          | Some d => digits w' r (10 * acc + d)
          | None => None
          end
      | EmptyString => None
      end
  end.

(** Reads decimal digits as long as there are some. *)
Fixpoint digitRun (s : string) (acc : Z) : Z * string :=
  match s with
  | String c r =>
      match digitVal c with
      | Some d => digitRun r (10 * acc + d)
      | None => (acc, s)
      end
  | EmptyString => (acc, s)
  end.

Definition startsWith (c : ascii) (s : string) : bool :=
  match s with
  | String c' _ => Ascii.eqb c' c
  | EmptyString => false
  end.

Definition rest (s : string) : string :=
  match s with
  | String _ r => r
  | EmptyString => EmptyString
  end.

(** Reads the character [c]. *)
Definition expect (c : ascii) (s : string) : option string :=
  if startsWith c s then Some (rest s) else None.

(** Reads [c] and then [w] digits when the text starts with [c], and
    nothing otherwise. *)
Definition optField (c : ascii) (w : nat) (s : string)
  : option (option Z * string) :=
  if startsWith c s then
    match digits w (rest s) 0 with
    | Some (v, r) => Some (Some v, r)
    | None => None
    end
  else Some (None, s).

(** The first [n] characters and what follows them. *)
Fixpoint splitAt (n : nat) (s : string) : option (string * string) :=
  match n with
  | O => Some (EmptyString, s)
  | S n' =>
      match s with
      | String c r =>
          match splitAt n' r with
          | Some (a, b) => Some (String c a, b)
          | None => None
          end
      | EmptyString => None
      end
  end.

End Text.

(** ** What the implementation decides

    ECMA-262 leaves two things that the source touches to the
    implementation: the offset of local time from UTC, and the date formats
    that [Date.parse] recognises beyond the ones the standard fixes. *)

Class Host : Type := {
  (** [LocalTZA(t, isUTC)]: the offset of local time in milliseconds, at
      the UTC time [t] when [isUTC] holds and at the local time [t]
      otherwise. *)
  LocalTZA : Z -> bool -> Z;
  (** The implementation's own date formats: the time value of a string of
      one of them, NaN for any other string. *)
  parseOther : string -> option Z
}.

(** A host on UTC that recognises no format of its own. *)
Definition plainHost : Host :=
  {| LocalTZA := fun _ _ => 0; parseOther := fun _ => None |}.

(** A host [offset] milliseconds east of UTC the year round. *)
Definition zoneHost (offset : Z) : Host :=
  {| LocalTZA := fun _ _ => offset; parseOther := fun _ => None |}.

Definition LocalTime `{Host} (t : Z) : Z := t + LocalTZA t true.
Definition UTC `{Host} (t : Z) : Z := t - LocalTZA t false.

(** ** Date: construction from fields, and the getters *)

(** The year argument of [Date.UTC] and of the [Date] constructor: the
    years 0 to 99 stand for 1900 to 1999. *)
Definition fullYear (y : Z) : Z :=
  if (0 <=? y) && (y <=? 99) then 1900 + y else y.

(** [Date.UTC(year, month, date, hours, minutes, seconds)]; the arguments
    are Numbers, here integers or NaN. *)
Definition Date_UTC (year month date hours minutes seconds : option Z)
  : option Z :=
  let* y := year in
  let* m := month in
  let* dt := date in
  let* h := hours in
  let* min := minutes in
  let* s := seconds in
  Time.TimeClip
    (Time.MakeDate (Time.MakeDay (fullYear y) m dt) (Time.MakeTime h min s 0)).

(** [new Date(year, month, date, hours, minutes, seconds, ms)]: the fields
    are read in local time. *)
Definition Date_local `{Host} (year month date hours minutes seconds ms : Z)
  : Date :=
  Time.TimeClip
    (UTC (Time.MakeDate (Time.MakeDay (fullYear year) month date)
            (Time.MakeTime hours minutes seconds ms))).

(** [new Date(value)] for a Number or a [Date]. *)
Definition Date_ofValue (value : option Z) : Date :=
  let* t := value in Time.TimeClip t.

Definition getUTCFullYear (d : Date) : option Z := option_map Time.YearFromTime d.
Definition getUTCMonth (d : Date) : option Z := option_map Time.MonthFromTime d.
Definition getUTCDate (d : Date) : option Z := option_map Time.DateFromTime d.
Definition getUTCHours (d : Date) : option Z := option_map Time.HourFromTime d.
Definition getUTCMinutes (d : Date) : option Z := option_map Time.MinFromTime d.
Definition getUTCSeconds (d : Date) : option Z := option_map Time.SecFromTime d.

Definition getFullYear `{Host} (d : Date) : option Z :=
  option_map (fun t => Time.YearFromTime (LocalTime t)) d.

(** ** Date: the formats the standard fixes *)

Module Format.

Definition dayName (d : Z) : string :=
  match d with
  | 0 => "Sun" | 1 => "Mon" | 2 => "Tue" | 3 => "Wed"
  | 4 => "Thu" | 5 => "Fri" | _ => "Sat"
  end.

Definition monthName (m : Z) : string :=
  match m with
  | 0 => "Jan" | 1 => "Feb" | 2 => "Mar" | 3 => "Apr"
  | 4 => "May" | 5 => "Jun" | 6 => "Jul" | 7 => "Aug"
  | 8 => "Sep" | 9 => "Oct" | 10 => "Nov" | _ => "Dec"
  end.

(** The month of a name, by search through the twelve. *)
Definition monthOfName (n : string) : option Z :=
  List.find (fun m => String.eqb (monthName m) n)
    [0; 1; 2; 3; 4; 5; 6; 7; 8; 9; 10; 11].

(** [Date.prototype.toUTCString] of a finite time value:
    ["Tue, 26 Jan 2016 13:48:02 GMT"]. *)
Definition toUTCString (t : Z) : string :=
  let y := Time.YearFromTime t in
  dayName (Time.WeekDay t) ++ ", "
    ++ Text.ToZeroPaddedDecimalString (Time.DateFromTime t) 2 ++ " "
    ++ monthName (Time.MonthFromTime t) ++ " "
    ++ (if 0 <=? y then "" else "-")
    ++ Text.ToZeroPaddedDecimalString (Z.abs y) 4 ++ " "
    ++ Text.ToZeroPaddedDecimalString (Time.HourFromTime t) 2 ++ ":"
    ++ Text.ToZeroPaddedDecimalString (Time.MinFromTime t) 2 ++ ":"
    ++ Text.ToZeroPaddedDecimalString (Time.SecFromTime t) 2 ++ " GMT".

(** [Date.prototype.toISOString] of a finite time value:
    ["2016-01-26T13:48:02.000Z"], the year with a sign and six digits
    when it is not one of 0 to 9999. *)
Definition isoYear (y : Z) : string :=
  if (0 <=? y) && (y <=? 9999) then Text.fixed 4 y
  else (if 0 <=? y then "+" else "-") ++ Text.fixed 6 (Z.abs y).

Definition toISOString (t : Z) : string :=
  isoYear (Time.YearFromTime t) ++ "-"
    ++ Text.fixed 2 (Time.MonthFromTime t + 1) ++ "-"
    ++ Text.fixed 2 (Time.DateFromTime t) ++ "T"
    ++ Text.fixed 2 (Time.HourFromTime t) ++ ":"
    ++ Text.fixed 2 (Time.MinFromTime t) ++ ":"
    ++ Text.fixed 2 (Time.SecFromTime t) ++ "."
    ++ Text.fixed 3 (Time.msFromTime t) ++ "Z".

End Format.

(** ** Date.parse

    [Date.parse] first reads its argument in the Date Time String Format, a
    profile of ISO 8601:

      YYYY, YYYY-MM or YYYY-MM-DD, the year also as +YYYYYY or -YYYYYY;
      then nothing, or T and HH:mm, HH:mm:ss or HH:mm:ss.sss, and after
      that nothing, Z, +HH:mm or -HH:mm.

    Any other string is left to the implementation.  So is, here, a string
    of that shape with a field out of its bounds: ECMA-262 wants it to be no
    date, but implementations differ, and some hand it to their own reader
    (one reads ["0012-13-10"] as the 13th of December 2010).  Of what
    [toUTCString] produces, which an implementation has to read back, the
    model fixes the reading of the dates of the years 1000 to 9999 only:
    a year printed with leading zeros or with a sign is read in more than
    one way (["Sat, 01 Jan 0000 00:00:00 GMT"] as a date of the year 2000,
    a negative year as no date), and is left to the implementation too. *)

Module Parse.

(** The fields of a string in the Date Time String Format.  [time] is
    absent in the date-only forms; [offset], in minutes, is absent when
    the string has neither [Z] nor a numeric offset. *)
Record fields : Type := {
  year : Z;
  month : Z;
  day : Z;
  time : option (Z * Z * Z * Z);
  offset : option Z
}.

Definition isoYear (s : string) : option (Z * string) :=
  if Text.startsWith "+" s then Text.digits 6 (Text.rest s) 0
  else if Text.startsWith "-" s then
    match Text.digits 6 (Text.rest s) 0 with
    | Some (y, r) => if y =? 0 then None else Some (- y, r)
    | None => None
    end
  else Text.digits 4 s 0.

(** Year, month and day; an absent month or day is 1. *)
Definition isoDate (s : string) : option (Z * Z * Z * string) :=
  match isoYear s with
  | Some (y, r) =>
      match Text.optField "-" 2 r with
      | Some (Some m, r1) =>
          match Text.optField "-" 2 r1 with
          | Some (Some d, r2) => Some (y, m, d, r2)
          | Some (None, r2) => Some (y, m, 1, r2)
          | None => None
          end
      | Some (None, r1) => Some (y, 1, 1, r1)
      | None => None
      end
  | None => None
  end.

(** Hours and minutes, then seconds and milliseconds when present. *)
Definition isoTime (s : string) : option (Z * Z * Z * Z * string) :=
  match Text.digits 2 s 0 with
  | Some (h, r) =>
      match Text.optField ":" 2 r with
      | Some (Some mi, r1) =>
          match Text.optField ":" 2 r1 with
          | Some (Some sec, r2) =>
              match Text.optField "." 3 r2 with
              | Some (Some ms, r3) => Some (h, mi, sec, ms, r3)
              | Some (None, r3) => Some (h, mi, sec, 0, r3)
              | None => None
              end
          | Some (None, r2) => Some (h, mi, 0, 0, r2)
          | None => None
          end
      | _ => None
      end
  | None => None
  end.

(** The UTC offset that ends a date-time form, in minutes, with its
    bounds checked; the outer [None] is a string of another shape. *)
Definition isoOffset (s : string) : option (option (option Z)) :=
  if String.eqb s "" then Some (Some None)
  else if String.eqb s "Z" then Some (Some (Some 0))
  else if Text.startsWith "+" s || Text.startsWith "-" s then
    match Text.digits 2 (Text.rest s) 0 with
    | Some (h, r) =>
        match Text.optField ":" 2 r with
        | Some (Some mi, r1) =>
            if String.eqb r1 "" then
              if (h <=? 23) && (mi <=? 59) then
                Some (Some (Some
                  (if Text.startsWith "-" s then - (h * 60 + mi)
                   else h * 60 + mi)))
              else Some None
            else None
        | _ => None
        end
    | None => None
    end
  else None.

(** The outer [None] is a string of another shape; the inner one, an
    offset out of bounds. *)
Definition isoFields (s : string) : option (option fields) :=
  match isoDate s with
  | Some (y, m, d, r) =>
      if String.eqb r "" then
        Some (Some {| year := y; month := m; day := d;
                      time := None; offset := None |})
      else
        match Text.expect "T" r with
        | Some r1 =>
            match isoTime r1 with
            | Some (h, mi, sec, ms, r2) =>
                match isoOffset r2 with
                | Some (Some off) =>
                    Some (Some {| year := y; month := m; day := d;
                                  time := Some (h, mi, sec, ms);
                                  offset := off |})
                | Some None => Some None
                | None => None
                end
            | None => None
            end
        | None => None
        end
  | None => None
  end.

(** The bounds of the fields: months 01 to 12, days 01 to 31, hours 00
    to 24, minutes and seconds 00 to 59; the hour 24 only as 24:00:00,
    the end of the day. *)
Definition legal (f : fields) : bool :=
  (1 <=? month f) && (month f <=? 12) && (1 <=? day f) && (day f <=? 31)
  && match time f with
     | Some (h, mi, sec, ms) =>
         (h <=? 24) && (mi <=? 59) && (sec <=? 59)
         && ((h <? 24) || ((mi =? 0) && (sec =? 0) && (ms =? 0)))
     | None => true
     end.

(** The time value of the fields: with an offset, the fields are a time
    at that offset; without one, a date-only form is a UTC time and a
    date-time form is a local time. *)
Definition timeOf `{Host} (f : fields) : Z :=
  let dayNo := Time.MakeDay (year f) (month f - 1) (day f) in
  match time f with
  | None => Time.MakeDate dayNo 0
  | Some (h, mi, sec, ms) =>
      let t := Time.MakeDate dayNo (Time.MakeTime h mi sec ms) in
      match offset f with
      | Some off => t - off * Time.msPerMinute
      | None => UTC t
      end
  end.

(** The reading of what [toUTCString] produces: the fields are taken from
    their places, and the string is the date they make when formatting
    that date gives the string back and its year has four digits, the
    first of them not 0. *)
Definition utcCandidate (s : string) : option Z :=
  let* p := Text.splitAt 5 s in
  let* q := Text.digits 2 (snd p) 0 in
  let* r := Text.expect " " (snd q) in
  let* mn := Text.splitAt 3 r in
  let* m := Format.monthOfName (fst mn) in
  let* r1 := Text.expect " " (snd mn) in
  let neg := Text.startsWith "-" r1 in
  let yr := Text.digitRun (if neg then Text.rest r1 else r1) 0 in
  let* r2 := Text.expect " " (snd yr) in
  let* h := Text.digits 2 r2 0 in
  let* r3 := Text.expect ":" (snd h) in
  let* mi := Text.digits 2 r3 0 in
  let* r4 := Text.expect ":" (snd mi) in
  let* sec := Text.digits 2 r4 0 in
  Some (Time.MakeDate
          (Time.MakeDay (if neg then - fst yr else fst yr) m (fst q))
          (Time.MakeTime (fst h) (fst mi) (fst sec) 0)).

Definition utcString (s : string) : option Z :=
  let* t := utcCandidate s in
  if (1000 <=? Time.YearFromTime t) && (Time.YearFromTime t <=? 9999)
     && String.eqb (Format.toUTCString t) s
  then Some t else None.

End Parse.

(** The reading of a string by the implementation's own formats. *)
Definition hostParse `{Host} (s : string) : option Z :=
  let* t := parseOther s in Time.TimeClip t.

(** [Date.parse(s)] *)
Definition Date_parse `{Host} (s : string) : option Z :=
  match Parse.isoFields s with
  | Some (Some f) =>
      if Parse.legal f then Time.TimeClip (Parse.timeOf f) else hostParse s
  | Some None => hostParse s
  | None =>
      match Parse.utcString s with
      | Some t => Time.TimeClip t
      | None => hostParse s
      end
  end.

(** [new Date(s)] for a String. *)
Definition Date_ofString `{Host} (s : string) : Date := Date_parse s.

(** ** Numbers that may be NaN, and binary64 *)

(** [x % k] *)
Definition nan_rem (x : option Z) (k : Z) : option Z :=
  option_map (fun n => Num.rem n k) x.

(** [x === k]: NaN is equal to nothing. *)
Definition strictEq (x : option Z) (k : Z) : bool :=
  match x with
  | Some n => n =? k
  | None => false
  end.

(** [Math.PI], the binary64 nearest to pi. *)
Definition Math_PI : float := 0x1.921fb54442d18p+1%float.

(** The binary64 of a natural number below 2^53. *)
Definition ofZ (z : Z) : float := PrimFloat.of_uint63 (Uint63.of_Z z).

(* ================================================================== *)
(** * Part II: the functions of the source *)
(* ================================================================== *)

(** ** timeSpanToString

    The two arguments are the time values of the dates; [-] converts a
    [Date] operand to its time value.  The two divisions that are not
    handed to [toFixed(0)] are exact, their dividends being multiples of
    1000 and of 60 ([allSecs_exact] and [allMins_exact] below). *)

(** [(el) => (el < 10 ? `0${el}` : el)] *)
Definition addZeros (el : value) : value :=
  if js_lt el 10 then VStr ("0" ++ ToString el) else el.

Definition timeSpanToString (startDate endDate : Z) : string :=
  let diff := Num.sub endDate startDate in
  let miliSecs := Num.rem diff 1000 in
  let allSecs := (diff - miliSecs) / 1000 in
  let secs :=
    if allSecs <? 60 then allSecs
    else allSecs - js_mul (Num.div_toFixed0 allSecs 60) 60 in
  let allMins := (allSecs - secs) / 60 in
  let mins :=
    if allMins <? 60 then allMins
    else allMins - js_mul (Num.div_toFixed0 allMins 60) 60 in
  let hours := Num.div_toFixed0 (allSecs - mins * 60) 3600 in
  let miliSecs' :=
    if miliSecs <? 100
    then VStr (if miliSecs <? 10
               then "00" ++ Num.toString miliSecs
               else "0" ++ Num.toString miliSecs)
    else VNum miliSecs in
  ToString (addZeros (VStr hours)) ++ ":" ++ ToString (addZeros (VNum mins))
    ++ ":" ++ ToString (addZeros (VNum secs)) ++ "." ++ ToString miliSecs'.

(** ** parseDataFromRfc2822 and parseDataFromIso8601 *)

Definition parseDataFromRfc2822 `{Host} (value : string) : option Z :=
  let tm := Date_ofString value in
  Date_UTC (getUTCFullYear tm) (getUTCMonth tm) (getUTCDate tm)
    (getUTCHours tm) (getUTCMinutes tm) (getUTCSeconds tm).

Definition parseDataFromIso8601 `{Host} (value : string) : Date :=
  Date_ofString value.

(** ** isLeapYear *)

Definition isLeapYear `{Host} (date : Date) : bool :=
  let year := getFullYear date in
  strictEq (nan_rem year 400) 0
  || (negb (strictEq (nan_rem year 100) 0) && strictEq (nan_rem year 4) 0).

(** ** angleBetweenClockHands

    The argument is a time value, as [Date.UTC] returns it, or a [Date].
    The hour and the minute are small integers; the angle is computed in
    binary64, as the source computes it. *)

Definition angleBetweenClockHands (date : option Z) : float :=
  let tm := Date_ofValue date in
  match getUTCHours tm, getUTCMinutes tm with
  | Some h0, Some m =>
      let h := if 12 <? h0 then Num.rem h0 12 else h0 in
      let angle :=
        (Math_PI / 360 * PrimFloat.abs (60 * ofZ h - 11 * ofZ m))%float in
      if (Math_PI <? angle)%float then (Math_PI * 2 - angle)%float else angle
  | _, _ => PrimFloat.nan
  end.

(* ================================================================== *)
(** * Part III: the words of the specification *)
(* ================================================================== *)

(** The angle as the specification words it, on the hour and the minute:
    [h12 = h mod 12], [angle = (pi/360) * |60 h12 - 11 m|], and
    [2 pi - angle] when [angle > pi]; in binary64 as well. *)
Definition clockHandAngle_spec (h m : Z) : float :=
  let h12 := h mod 12 in
  let angle :=
    (Math_PI / 360 * PrimFloat.abs (60 * ofZ h12 - 11 * ofZ m))%float in
  if (Math_PI <? angle)%float then (2 * Math_PI - angle)%float else angle.

(** The time span as the specification words it, on the difference in
    milliseconds: floor division and remainders, two digits at least for
    hours, minutes and seconds, three for milliseconds. *)
Definition formatTimeSpan_spec (diffMs : Z) : string :=
  let milliseconds := diffMs mod 1000 in
  let totalSeconds := diffMs / 1000 in
  let seconds := totalSeconds mod 60 in
  let totalMinutes := totalSeconds / 60 in
  let minutes := totalMinutes mod 60 in
  let hours := totalMinutes / 60 in
  Text.ToZeroPaddedDecimalString hours 2 ++ ":"
    ++ Text.ToZeroPaddedDecimalString minutes 2 ++ ":"
    ++ Text.ToZeroPaddedDecimalString seconds 2 ++ "."
    ++ Text.ToZeroPaddedDecimalString milliseconds 3.

(** Formatting to ISO 8601 with an explicit offset, as the specification
    words the round trip of [parseIso8601ToDate]: the fields of the time at
    [off] minutes east of UTC, and then the offset, [+HH:mm] or [-HH:mm].
    The source has no such function; [Format.toISOString] is the one of
    the host, with [Z] for the offset. *)
Definition formatIso8601_spec (off t : Z) : string :=
  let l := t + off * Time.msPerMinute in
  Format.isoYear (Time.YearFromTime l) ++ "-"
    ++ Text.fixed 2 (Time.MonthFromTime l + 1) ++ "-"
    ++ Text.fixed 2 (Time.DateFromTime l) ++ "T"
    ++ Text.fixed 2 (Time.HourFromTime l) ++ ":"
    ++ Text.fixed 2 (Time.MinFromTime l) ++ ":"
    ++ Text.fixed 2 (Time.SecFromTime l) ++ "."
    ++ Text.fixed 3 (Time.msFromTime l)
    ++ (if 0 <=? off then "+" else "-")
    ++ Text.fixed 2 (Z.abs off / 60) ++ ":" ++ Text.fixed 2 (Z.abs off mod 60).


(** The well-formed ISO 8601 date-times with an explicit zone, by what
    they denote: the instant [t], written with the fields of the time at
    the zone, down to the minutes, the seconds or the milliseconds, and
    followed by the zone, [Z] or an offset in minutes as [+HH:mm] or
    [-HH:mm].  A text that stops at the minutes or at the seconds denotes
    [t] when [t] has nothing below them ([exactTo]). *)
Inductive precision : Type := ToMinutes | ToSeconds | ToMillis.

Inductive zone : Type := ZoneZ | ZoneOffset (off : Z).

Definition zoneMinutes (z : zone) : Z :=
  match z with
  | ZoneZ => 0
  | ZoneOffset off => off
  end.

Definition zoneText (z : zone) : string :=
  match z with
  | ZoneZ => "Z"
  | ZoneOffset off =>
      (if 0 <=? off then "+" else "-")
        ++ Text.fixed 2 (Z.abs off / 60) ++ ":" ++ Text.fixed 2 (Z.abs off mod 60)
  end.

Definition timeText (p : precision) (l : Z) : string :=
  match p with
  | ToMinutes =>
      Text.fixed 2 (Time.HourFromTime l) ++ ":"
        ++ Text.fixed 2 (Time.MinFromTime l)
  | ToSeconds =>
      Text.fixed 2 (Time.HourFromTime l) ++ ":"
        ++ Text.fixed 2 (Time.MinFromTime l) ++ ":"
        ++ Text.fixed 2 (Time.SecFromTime l)
  | ToMillis =>
      Text.fixed 2 (Time.HourFromTime l) ++ ":"
        ++ Text.fixed 2 (Time.MinFromTime l) ++ ":"
        ++ Text.fixed 2 (Time.SecFromTime l) ++ "."
        ++ Text.fixed 3 (Time.msFromTime l)
  end.

Definition exactTo (p : precision) (t : Z) : Prop :=
  match p with
  | ToMinutes => t mod Time.msPerMinute = 0
  | ToSeconds => t mod Time.msPerSecond = 0
  | ToMillis => True
  end.

Definition iso8601Text (p : precision) (z : zone) (t : Z) : string :=
  let l := t + zoneMinutes z * Time.msPerMinute in
  Format.isoYear (Time.YearFromTime l) ++ "-"
    ++ Text.fixed 2 (Time.MonthFromTime l + 1) ++ "-"
    ++ Text.fixed 2 (Time.DateFromTime l) ++ "T"
    ++ timeText p l ++ zoneText z.

(** The offsets of a zone: less than a day. *)
Definition zoneOk (z : zone) : Prop := Z.abs (zoneMinutes z) < 1440.

(* ================================================================== *)
(** * Part IV: definitions for the proofs *)
(* ================================================================== *)

(** ** Finite checks

    The angle depends on the hour and the minute only, and there are 1440
    of these: what holds of every one of them is checked by running the
    function on each. *)

(** The body of [angleBetweenClockHands] once the hour and the minute have
    been read. *)
Definition angleOf (h0 m : Z) : float :=
  let h := if 12 <? h0 then Num.rem h0 12 else h0 in
  let angle :=
    (Math_PI / 360 * PrimFloat.abs (60 * ofZ h - 11 * ofZ m))%float in
  if (Math_PI <? angle)%float then (Math_PI * 2 - angle)%float else angle.

Definition upto (n : nat) : list Z := List.map Z.of_nat (List.seq 0 n).

Definition everyMinute (P : Z -> Z -> bool) : bool :=
  List.forallb (fun h => List.forallb (P h) (upto 60)) (upto 24).

(** The angle is between 0 and [Math.PI]. *)
Definition inRange (h m : Z) : bool :=
  (0 <=? angleOf h m)%float && (angleOf h m <=? Math_PI)%float.

(** The angle is the one of the specification, bit for bit, except maybe
    at the hour 12. *)
Definition sameAsSpec (h m : Z) : bool :=
  (h =? 12) || PrimFloat.Leibniz.eqb (angleOf h m) (clockHandAngle_spec h m).

(** The angle is within 2^-50 of the one of the specification. *)
Definition nearSpec (h m : Z) : bool :=
  (PrimFloat.abs (angleOf h m - clockHandAngle_spec h m) <=? 0x1p-50)%float.

(** ** The time span as a function of the difference

    [timeSpanToString] reads its arguments once, to subtract them; this is
    the rest of it. *)
Definition spanOfDiff (diff : Z) : string :=
  let miliSecs := Num.rem diff 1000 in
  let allSecs := (diff - miliSecs) / 1000 in
  let secs :=
    if allSecs <? 60 then allSecs
    else allSecs - js_mul (Num.div_toFixed0 allSecs 60) 60 in
  let allMins := (allSecs - secs) / 60 in
  let mins :=
    if allMins <? 60 then allMins
    else allMins - js_mul (Num.div_toFixed0 allMins 60) 60 in
  let hours := Num.div_toFixed0 (allSecs - mins * 60) 3600 in
  let miliSecs' :=
    if miliSecs <? 100
    then VStr (if miliSecs <? 10
               then "00" ++ Num.toString miliSecs
               else "0" ++ Num.toString miliSecs)
    else VNum miliSecs in
  ToString (addZeros (VStr hours)) ++ ":" ++ ToString (addZeros (VNum mins))
    ++ ":" ++ ToString (addZeros (VNum secs)) ++ "." ++ ToString miliSecs'.

(** ** Texts of digits *)

(** Every character of the string passes the test. *)
Fixpoint only (ok : ascii -> bool) (s : string) : bool :=
  match s with
  | EmptyString => true
  | String c r => ok c && only ok r
  end.

Definition isDigit (c : ascii) : bool :=
  match Text.digitVal c with Some _ => true | None => false end.

(** The characters of a printed integer: digits and the minus sign. *)
Definition isNumeric (c : ascii) : bool := isDigit c || Ascii.eqb c "-".

Definition isNot (c x : ascii) : bool := negb (Ascii.eqb x c).

(** The seconds of [allSecs], and the minutes of [allMins], as the source
    computes them. *)
Definition partOf (all : Z) : Z :=
  if all <? 60 then all else all - js_mul (Num.div_toFixed0 all 60) 60.

(** The text of the milliseconds. *)
Definition msText (miliSecs : Z) : string :=
  ToString (if miliSecs <? 100
            then VStr (if miliSecs <? 10
                       then "00" ++ Num.toString miliSecs
                       else "0" ++ Num.toString miliSecs)
            else VNum miliSecs).

(** Padding by hand, as the source does it, against padding to a width. *)
Definition padsAlike2 (v : Z) : bool :=
  String.eqb (ToString (addZeros (VNum v))) (Text.ToZeroPaddedDecimalString v 2).

Definition padsAlike3 (v : Z) : bool :=
  String.eqb (msText v) (Text.ToZeroPaddedDecimalString v 3).

(** What the source makes of a valid date: the fields from the year down to
    the seconds, put together again. *)
Definition rebuilt (t : Z) : Z :=
  Time.MakeDate
    (Time.MakeDay (fullYear (Time.YearFromTime t)) (Time.MonthFromTime t)
       (Time.DateFromTime t))
    (Time.MakeTime (Time.HourFromTime t) (Time.MinFromTime t)
       (Time.SecFromTime t) 0).

(** ** Definitions for the further properties *)

(** The text holds no minus sign. *)
Definition noMinus (s : string) : bool := only (isNot "-") s.

(** Half a day, in milliseconds. *)
Definition halfDay : Z := 12 * Time.msPerHour.

(** Twelve hours later the angle is the same, bit for bit, except maybe
    from the hours 0 and 12. *)
Definition sameHalfDayLater (h m : Z) : bool :=
  (h mod 12 =? 0)
  || PrimFloat.Leibniz.eqb (angleOf ((h + 12) mod 24) m) (angleOf h m).

(** Twelve hours later the angle is within 2^-50. *)
Definition nearHalfDayLater (h m : Z) : bool :=
  (PrimFloat.abs (angleOf ((h + 12) mod 24) m - angleOf h m) <=? 0x1p-50)%float.

(** The angle is 0 at 00:00 and 12:00 only, and [Math.PI] at 06:00 and
    18:00 only. *)
Definition extremesAt (h m : Z) : bool :=
  Bool.eqb (PrimFloat.Leibniz.eqb (angleOf h m) 0%float)
           ((h mod 12 =? 0) && (m =? 0))
  && Bool.eqb (PrimFloat.Leibniz.eqb (angleOf h m) Math_PI)
              ((h mod 12 =? 6) && (m =? 0)).

(** The text of the date and the time of [l] with no offset after it, and
    the text of the date alone: the two forms of the Date Time String
    Format that leave the zone to the reader. *)
Definition isoLocalText (l : Z) : string :=
  Format.isoYear (Time.YearFromTime l) ++ "-"
    ++ Text.fixed 2 (Time.MonthFromTime l + 1) ++ "-"
    ++ Text.fixed 2 (Time.DateFromTime l) ++ "T"
    ++ Text.fixed 2 (Time.HourFromTime l) ++ ":"
    ++ Text.fixed 2 (Time.MinFromTime l) ++ ":"
    ++ Text.fixed 2 (Time.SecFromTime l) ++ "."
    ++ Text.fixed 3 (Time.msFromTime l).

Definition isoDateText (l : Z) : string :=
  Format.isoYear (Time.YearFromTime l) ++ "-"
    ++ Text.fixed 2 (Time.MonthFromTime l + 1) ++ "-"
    ++ Text.fixed 2 (Time.DateFromTime l).

(* ================================================================== *)
(** * Part V: properties *)
(* ================================================================== *)

(** Goals of linear arithmetic with divisions and remainders by numerals. *)
Ltac divmod := Z.div_mod_to_equations; lia.

(** The bound of a field printed on two, three, four or six digits. *)
Ltac fits :=
  try change (10 ^ Z.of_nat 2) with 100;
  try change (10 ^ Z.of_nat 3) with 1000;
  try change (10 ^ Z.of_nat 4) with 10000;
  try change (10 ^ Z.of_nat 6) with 1000000;
  lia.

(** ** The calendar *)

Module TimeFacts.
Import Time.

Lemma DayFromYear_succ (y : Z) : DayFromYear (y + 1) = DayFromYear y + DaysInYear y.
Proof.
  unfold DayFromYear, DaysInYear, isLeap.
  destruct (Z.eqb_spec (y mod 4) 0); destruct (Z.eqb_spec (y mod 100) 0);
    destruct (Z.eqb_spec (y mod 400) 0); cbn [negb]; divmod.
Qed.

(** The first day of the year that comes [c] centuries, [b] groups of four
    years and [a] years after the start of the cycle [q]. *)
Lemma DayFromYear_cycle (q c b a : Z) :
  0 <= c <= 3 -> 0 <= b <= 24 -> 0 <= a <= 3 ->
  DayFromYear (1601 + 400 * q + 100 * c + 4 * b + a)
  = 146097 * q + 36524 * c + 1461 * b + 365 * a - 134774.
Proof. intros Hc Hb Ha. unfold DayFromYear. divmod. Qed.

(** The fourth year of a group is a leap year, but for the last group of
    each of the first three centuries of a cycle. *)
Lemma DaysInYear_cycle (q c b a : Z) :
  0 <= c <= 3 -> 0 <= b <= 24 -> 0 <= a <= 3 ->
  DaysInYear (1601 + 400 * q + 100 * c + 4 * b + a)
  = if (a =? 3) && ((b <? 24) || (c =? 3)) then 366 else 365.
Proof.
  intros Hc Hb Ha. unfold DaysInYear, isLeap.
  set (y := 1601 + 400 * q + 100 * c + 4 * b + a).
  destruct (Z.eqb_spec a 3); destruct (Z.ltb_spec b 24); destruct (Z.eqb_spec c 3);
    destruct (Z.eqb_spec (y mod 4) 0); destruct (Z.eqb_spec (y mod 100) 0);
    destruct (Z.eqb_spec (y mod 400) 0); cbn [negb andb orb]; try reflexivity;
    exfalso; unfold y in *; divmod.
Qed.

Lemma YearFromDay_spec (d : Z) :
  DayFromYear (YearFromDay d) <= d < DayFromYear (YearFromDay d + 1).
Proof.
  rewrite DayFromYear_succ. unfold YearFromDay.
  change (DayFromYear 1601) with (-134774).
  set (n := d - -134774).
  pose proof (Z.mod_pos_bound n 146097 ltac:(lia)) as Hr.
  pose proof (Z.div_mod n 146097 ltac:(lia)) as Hn.
  set (q := n / 146097) in *. set (r := n mod 146097) in *.
  set (c := Z.min (r / 36524) 3).
  assert (Hc : 0 <= c <= 3 /\ c * 36524 <= r /\ (c < 3 -> r < (c + 1) * 36524))
    by (unfold c; divmod).
  set (r100 := r - c * 36524).
  set (b := r100 / 1461).
  assert (Hb : 0 <= b <= 24 /\ b * 1461 <= r100 < (b + 1) * 1461)
    by (unfold b, r100; divmod).
  set (r4 := r100 - b * 1461).
  set (a := Z.min (r4 / 365) 3).
  assert (Ha : 0 <= a <= 3 /\ a * 365 <= r4 /\ (a < 3 -> r4 < (a + 1) * 365))
    by (unfold a, r4; divmod).
  rewrite DaysInYear_cycle, DayFromYear_cycle by lia.
  assert (Hd : d = 146097 * q + 36524 * c + 1461 * b + r4 - 134774)
    by (unfold r4, r100, n in *; lia).
  destruct (Z.eqb_spec a 3); destruct (Z.ltb_spec b 24); destruct (Z.eqb_spec c 3);
    cbn [andb orb]; unfold r4, r100 in *; lia.
Qed.

Lemma isLeap_flag (y : Z) : (if isLeap y then 1 else 0) = DaysInYear y - 365.
Proof. unfold DaysInYear. destruct (isLeap y); reflexivity. Qed.

Lemma DayWithinYear_range (t : Z) :
  0 <= DayWithinYear t < 365 + InLeapYear t.
Proof.
  unfold DayWithinYear, InLeapYear, YearFromTime.
  pose proof (YearFromDay_spec (Day t)) as H.
  rewrite DayFromYear_succ in H. rewrite isLeap_flag. lia.
Qed.

Lemma monthOfDay_range (d l : Z) : 0 <= monthOfDay d l <= 11.
Proof.
  unfold monthOfDay.
  repeat match goal with
         | |- context [if ?x <? ?y then _ else _] => destruct (Z.ltb_spec x y)
         end; lia.
Qed.

Lemma monthOfDay_date (d l : Z) :
  0 <= d < 365 + l -> 0 <= l <= 1 ->
  1 <= d - monthStart (monthOfDay d l) l + 1 <= 31.
Proof.
  intros Hd Hl. unfold monthOfDay.
  repeat match goal with
         | |- context [if ?x <? ?y then _ else _] => destruct (Z.ltb_spec x y)
         end; cbn [monthStart]; lia.
Qed.

Lemma InLeapYear_range (t : Z) : 0 <= InLeapYear t <= 1.
Proof. unfold InLeapYear. destruct (isLeap _); lia. Qed.

Lemma MonthFromTime_range (t : Z) : 0 <= MonthFromTime t <= 11.
Proof. apply monthOfDay_range. Qed.

Lemma DateFromTime_range (t : Z) : 1 <= DateFromTime t <= 31.
Proof.
  unfold DateFromTime, MonthFromTime.
  apply monthOfDay_date; [apply DayWithinYear_range | apply InLeapYear_range].
Qed.

Lemma monthStart_bound (m l : Z) :
  0 <= m <= 11 -> 0 <= l <= 1 -> 0 <= monthStart m l <= 335.
Proof.
  intros Hm Hl.
  assert (Hc : m = 0 \/ m = 1 \/ m = 2 \/ m = 3 \/ m = 4 \/ m = 5 \/ m = 6
               \/ m = 7 \/ m = 8 \/ m = 9 \/ m = 10 \/ m = 11) by lia.
  repeat (destruct Hc as [-> | Hc]); try rewrite Hc; cbn [monthStart]; lia.
Qed.

Lemma MakeDay_fields (t : Z) :
  MakeDay (YearFromTime t) (MonthFromTime t) (DateFromTime t) = Day t.
Proof.
  pose proof (MonthFromTime_range t) as Hm.
  unfold MakeDay.
  replace (MonthFromTime t / 12) with 0 by divmod.
  replace (MonthFromTime t mod 12) with (MonthFromTime t) by divmod.
  rewrite Z.add_0_r. unfold DateFromTime, DayWithinYear, InLeapYear. lia.
Qed.

Lemma time_fields (t : Z) :
  MakeDate (Day t)
    (MakeTime (HourFromTime t) (MinFromTime t) (SecFromTime t) (msFromTime t)) = t.
Proof.
  unfold MakeDate, MakeTime, Day, HourFromTime, MinFromTime, SecFromTime,
    msFromTime, msPerDay, msPerHour, msPerMinute, msPerSecond.
  divmod.
Qed.

Lemma YearFromTime_range (t : Z) :
  Z.abs t <= maxTime -> -271821 <= YearFromTime t <= 275760.
Proof.
  intros Ht. unfold YearFromTime.
  pose proof (YearFromDay_spec (Day t)) as H.
  assert (Hd : -100000000 <= Day t <= 100000000).
  { unfold Day, msPerDay, maxTime in *. divmod. }
  revert H. generalize (YearFromDay (Day t)). intros y [H1 H2].
  unfold DayFromYear in *. divmod.
Qed.

Lemma DayFromYear_mono (y1 y2 : Z) : y1 <= y2 -> DayFromYear y1 <= DayFromYear y2.
Proof. intros Hy. unfold DayFromYear. divmod. Qed.

(** The year of a day is the only one that holds the day: it is the largest
    year that starts on the day or before it. *)
Lemma YearFromDay_unique (d y : Z) :
  DayFromYear y <= d < DayFromYear (y + 1) -> YearFromDay d = y.
Proof.
  intros Hy. pose proof (YearFromDay_spec d) as Hs.
  destruct (Z.lt_trichotomy (YearFromDay d) y) as [Hlt | [Heq | Hgt]].
  - pose proof (DayFromYear_mono (YearFromDay d + 1) y ltac:(lia)). lia.
  - exact Heq.
  - pose proof (DayFromYear_mono (y + 1) (YearFromDay d) ltac:(lia)). lia.
Qed.

Lemma YearFromDay_largest (d y : Z) :
  DayFromYear y <= d -> y <= YearFromDay d.
Proof.
  intros Hy. pose proof (YearFromDay_spec d) as Hs.
  destruct (Z.le_gt_cases y (YearFromDay d)) as [Hle | Hgt]; [exact Hle | ].
  pose proof (DayFromYear_mono (YearFromDay d + 1) y ltac:(lia)). lia.
Qed.

(** [MakeDay] gives the day that ECMA-262 asks for: the first day of the
    month [mn] of the year [ym]. *)
Lemma MakeDay_first (year month : Z) :
  let ym := year + month / 12 in
  let mn := month mod 12 in
  let t := MakeDay year month 1 * msPerDay in
  YearFromTime t = ym /\ MonthFromTime t = mn /\ DateFromTime t = 1.
Proof.
  intros ym mn t.
  assert (Hmn : 0 <= mn < 12) by (apply Z.mod_pos_bound; lia).
  assert (Hday : Day t = MakeDay year month 1).
  { unfold t, Day, msPerDay. apply Z.div_mul. discriminate. }
  assert (Hflag : 0 <= (if isLeap ym then 1 else 0) <= 1) by (destruct (isLeap ym); lia).
  assert (Hstart : 0 <= monthStart mn (if isLeap ym then 1 else 0)
                   < 365 + (if isLeap ym then 1 else 0)).
  { assert (Hc : mn = 0 \/ mn = 1 \/ mn = 2 \/ mn = 3 \/ mn = 4 \/ mn = 5 \/ mn = 6
                 \/ mn = 7 \/ mn = 8 \/ mn = 9 \/ mn = 10 \/ mn = 11) by lia.
    repeat (destruct Hc as [-> | Hc]); try rewrite Hc; cbn [monthStart]; lia. }
  assert (Hy : YearFromTime t = ym).
  { unfold YearFromTime. rewrite Hday. apply YearFromDay_unique.
    rewrite DayFromYear_succ. pose proof (isLeap_flag ym) as Hl.
    unfold MakeDay. fold ym mn. lia. }
  assert (Hdwy : DayWithinYear t = monthStart mn (if isLeap ym then 1 else 0)).
  { unfold DayWithinYear. rewrite Hy, Hday. unfold MakeDay. fold ym mn. lia. }
  assert (Hm : MonthFromTime t = mn).
  { unfold MonthFromTime, InLeapYear. rewrite Hdwy, Hy.
    assert (Hc : mn = 0 \/ mn = 1 \/ mn = 2 \/ mn = 3 \/ mn = 4 \/ mn = 5 \/ mn = 6
                 \/ mn = 7 \/ mn = 8 \/ mn = 9 \/ mn = 10 \/ mn = 11) by lia.
    destruct (isLeap ym);
      repeat (destruct Hc as [-> | Hc]); try rewrite Hc; reflexivity. }
  split; [exact Hy | split; [exact Hm | ] ].
  unfold DateFromTime. rewrite Hm, Hdwy. unfold InLeapYear. rewrite Hy. lia.
Qed.

End TimeFacts.

(** ** The clock *)

Lemma upto_In (n : nat) (z : Z) : 0 <= z < Z.of_nat n -> In z (upto n).
Proof.
  intros Hz. unfold upto. apply in_map_iff. exists (Z.to_nat z). split.
  - lia.
  - apply in_seq. lia.
Qed.

Lemma everyMinute_sound (P : Z -> Z -> bool) :
  everyMinute P = true ->
  forall h m, 0 <= h < 24 -> 0 <= m < 60 -> P h m = true.
Proof.
  unfold everyMinute. intros Hall h m Hh Hm.
  rewrite forallb_forall in Hall.
  specialize (Hall h (upto_In 24 h Hh)). rewrite forallb_forall in Hall.
  exact (Hall m (upto_In 60 m Hm)).
Qed.

Lemma HourFromTime_range (t : Z) : 0 <= Time.HourFromTime t < 24.
Proof. unfold Time.HourFromTime. apply Z.mod_pos_bound. lia. Qed.

Lemma MinFromTime_range (t : Z) : 0 <= Time.MinFromTime t < 60.
Proof. unfold Time.MinFromTime. apply Z.mod_pos_bound. lia. Qed.

Lemma TimeClip_valid (t : Z) :
  Z.abs t <= Time.maxTime -> Time.TimeClip t = Some t.
Proof.
  intros Ht. unfold Time.TimeClip.
  destruct (Z.ltb_spec Time.maxTime (Z.abs t)); [lia | reflexivity].
Qed.

(** On a valid date the function is [angleOf] at the UTC hour and minute. *)
Lemma angleBetweenClockHands_angleOf (t : Z) :
  Z.abs t <= Time.maxTime ->
  angleBetweenClockHands (Some t)
  = angleOf (Time.HourFromTime t) (Time.MinFromTime t).
Proof.
  intros Ht. unfold angleBetweenClockHands, Date_ofValue, nan_bind.
  rewrite (TimeClip_valid t Ht). reflexivity.
Qed.

Lemma inRange_all : everyMinute inRange = true.
Proof. vm_compute. reflexivity. Qed.

Lemma sameAsSpec_all : everyMinute sameAsSpec = true.
Proof. vm_compute. reflexivity. Qed.

Lemma nearSpec_all : everyMinute nearSpec = true.
Proof. vm_compute. reflexivity. Qed.

(** C4.  For every valid date the angle lies between 0 and [Math.PI], the
    bounds included; and the dates of 00:00, 03:00, 18:00 and 21:00 UTC
    give 0, [Math.PI / 2], [Math.PI] and [Math.PI / 2]. *)
Theorem angleBetweenClockHands_range :
  (forall t : Z, Z.abs t <= Time.maxTime ->
     (0 <=? angleBetweenClockHands (Some t))%float = true
     /\ (angleBetweenClockHands (Some t) <=? Math_PI)%float = true)
  /\ angleBetweenClockHands
       (Date_UTC (Some 2016) (Some 2) (Some 5) (Some 0) (Some 0) (Some 0))
     = 0%float
  /\ angleBetweenClockHands
       (Date_UTC (Some 2016) (Some 3) (Some 5) (Some 3) (Some 0) (Some 0))
     = (Math_PI / 2)%float
  /\ angleBetweenClockHands
       (Date_UTC (Some 2016) (Some 3) (Some 5) (Some 18) (Some 0) (Some 0))
     = Math_PI
  /\ angleBetweenClockHands
       (Date_UTC (Some 2016) (Some 3) (Some 5) (Some 21) (Some 0) (Some 0))
     = (Math_PI / 2)%float.
Proof.
  split.
  - intros t Ht. rewrite (angleBetweenClockHands_angleOf t Ht).
    pose proof (everyMinute_sound inRange inRange_all _ _
                  (HourFromTime_range t) (MinFromTime_range t)) as H.
    unfold inRange in H. apply andb_true_iff in H. exact H.
  - repeat split; vm_compute; reflexivity.
Qed.

(** In exact arithmetic the hour 12 and the hour 0 give one angle: counted
    in units of pi/360, with [x = |60 * 12 - 11 m|] and [y = |11 m|], the
    smaller of [x] and [720 - x] is the smaller of [y] and [720 - y].  The
    two differ in binary64 only by the rounding of their operations. *)
Lemma noon_exact (m : Z) :
  0 <= m < 60 ->
  let x := Z.abs (60 * 12 - 11 * m) in
  let y := Z.abs (60 * 0 - 11 * m) in
  (if 360 <? x then 720 - x else x) = (if 360 <? y then 720 - y else y).
Proof.
  intros Hm x y. unfold x, y.
  destruct (Z.ltb_spec 360 (Z.abs (60 * 12 - 11 * m)));
    destruct (Z.ltb_spec 360 (Z.abs (60 * 0 - 11 * m))); lia.
Qed.

(** C3, as it fails: at 12:01 UTC the source and the formula of the
    specification give two different Numbers. *)
Lemma angleBetweenClockHands_noon_differs :
  let t := 1451649660000 in
  Date_UTC (Some 2016) (Some 0) (Some 1) (Some 12) (Some 1) (Some 0) = Some t
  /\ Time.HourFromTime t = 12 /\ Time.MinFromTime t = 1
  /\ angleBetweenClockHands (Some t) = 0x1.893011f31984p-4%float
  /\ clockHandAngle_spec 12 1 = 0x1.893011f31982ep-4%float
  /\ angleBetweenClockHands (Some t)
     <> clockHandAngle_spec (Time.HourFromTime t) (Time.MinFromTime t).
Proof.
  repeat split; try (vm_compute; reflexivity).
  vm_compute. intro H. discriminate H.
Qed.

(** C3, as it holds: for every valid date whose UTC hour is not 12 the
    result is the Number that the formula of the specification gives, bit
    for bit; at the hour 12, where the source leaves the hour as it is, the
    two are within 2^-50 of each other, and equal at 12:00. *)
Theorem angleBetweenClockHands_formula (t : Z) :
  Z.abs t <= Time.maxTime ->
  let h := Time.HourFromTime t in
  let m := Time.MinFromTime t in
  (h <> 12 -> angleBetweenClockHands (Some t) = clockHandAngle_spec h m)
  /\ (h = 12 -> m = 0 ->
      angleBetweenClockHands (Some t) = clockHandAngle_spec h m)
  /\ (PrimFloat.abs (angleBetweenClockHands (Some t) - clockHandAngle_spec h m)
        <=? 0x1p-50)%float = true.
Proof.
  intros Ht h m. rewrite (angleBetweenClockHands_angleOf t Ht). fold h m.
  pose proof (HourFromTime_range t) as Hh. pose proof (MinFromTime_range t) as Hm.
  fold h in Hh. fold m in Hm. repeat split.
  - intros Hne.
    pose proof (everyMinute_sound sameAsSpec sameAsSpec_all h m Hh Hm) as H.
    unfold sameAsSpec in H. apply orb_true_iff in H. destruct H as [H | H].
    + apply Z.eqb_eq in H. contradiction.
    + apply FloatAxioms.Leibniz.eqb_spec. exact H.
  - intros H12 H0. rewrite H12, H0. vm_compute. reflexivity.
  - exact (everyMinute_sound nearSpec nearSpec_all h m Hh Hm).
Qed.

Lemma angleBetweenClockHands_formula_witness :
  let t := 1459825380000 in
  Time.HourFromTime t = 3 /\ Time.MinFromTime t = 3
  /\ angleBetweenClockHands (Some t) = clockHandAngle_spec 3 3.
Proof.
  split; [reflexivity | split; [reflexivity | ]].
  refine (proj1 (angleBetweenClockHands_formula 1459825380000 _) _).
  - vm_compute. discriminate.
  - vm_compute. discriminate.
Defined.

(** ** Leap years *)

Lemma rem_zero_iff (y k : Z) : k <> 0 -> (Z.rem y k = 0 <-> y mod k = 0).
Proof.
  intros Hk. rewrite Z.rem_divide by exact Hk.
  rewrite Z.mod_divide by exact Hk. reflexivity.
Qed.

Lemma strictEq_rem_zero (y k : Z) :
  k <> 0 -> strictEq (nan_rem (Some y) k) 0 = (y mod k =? 0).
Proof.
  intros Hk. unfold strictEq, nan_rem, option_map, Num.rem.
  destruct (Z.eqb_spec (Z.rem y k) 0) as [E | E];
    destruct (Z.eqb_spec (y mod k) 0) as [F | F]; try reflexivity.
  - apply rem_zero_iff in E; [contradiction | exact Hk].
  - apply rem_zero_iff in F; [contradiction | exact Hk].
Qed.

(** C5.  Whatever the host, for every date with a time value [t] the result
    is true exactly when the calendar year [Y] of the date, the year of [t]
    in local time, is a multiple of 400, or a multiple of 4 that is not one
    of 100; two dates of the same year have the same result; a date that is
    not valid gives [false], not an error; and the five dates of the
    documentation give false, true, false, true and false. *)
Theorem isLeapYear_gregorian :
  (forall (H : Host) (t : Z),
     let Y := Time.YearFromTime (LocalTime t) in
     getFullYear (Some t) = Some Y
     /\ (isLeapYear (Some t) = true
         <-> Y mod 400 = 0 \/ (Y mod 100 <> 0 /\ Y mod 4 = 0)))
  /\ (forall (H : Host) (d1 d2 : Date),
        getFullYear d1 = getFullYear d2 -> isLeapYear d1 = isLeapYear d2)
  /\ (forall H : Host, isLeapYear None = false)
  /\ (let H := plainHost in
      isLeapYear (Date_local 1900 1 1 0 0 0 0) = false
      /\ isLeapYear (Date_local 2000 1 1 0 0 0 0) = true
      /\ isLeapYear (Date_local 2001 1 1 0 0 0 0) = false
      /\ isLeapYear (Date_local 2012 1 1 0 0 0 0) = true
      /\ isLeapYear (Date_local 2015 1 1 0 0 0 0) = false).
Proof.
  split; [ | split; [ | split ] ].
  - intros H t Y. split; [reflexivity | ].
    unfold isLeapYear. change (getFullYear (Some t)) with (Some Y).
    rewrite !strictEq_rem_zero by discriminate.
    destruct (Z.eqb_spec (Y mod 400) 0) as [E400 | E400];
      destruct (Z.eqb_spec (Y mod 100) 0) as [E100 | E100];
      destruct (Z.eqb_spec (Y mod 4) 0) as [E4 | E4]; cbn; split;
      try (intros _; tauto); try discriminate; intros [F | [F G]];
      try reflexivity; contradiction.
  - intros H d1 d2 E. unfold isLeapYear. rewrite E. reflexivity.
  - intros H. reflexivity.
  - cbv zeta. repeat split; vm_compute; reflexivity.
Qed.

(** ** Time spans *)

Lemma timeSpanToString_spanOfDiff (startDate endDate : Z) :
  timeSpanToString startDate endDate = spanOfDiff (Num.sub endDate startDate).
Proof. reflexivity. Qed.

Lemma sub_same_day (day0 a b : Z) :
  Z.abs (a - b) <= Num.two53 -> Num.sub (day0 + a) (day0 + b) = a - b.
Proof.
  intros Hab. unfold Num.sub, Num.round64.
  replace (day0 + a - (day0 + b)) with (a - b) by lia.
  destruct (Z.leb_spec (Z.abs (a - b)) Num.two53); [reflexivity | lia].
Qed.

(** C9.  On any day, [day0] being the time value of its midnight, the span
    from 10:00:00 to 11:00:00, 10:30:00, 10:00:20, 10:00:00.250 and
    15:20:10.453 is printed as the documentation has it. *)
Theorem timeSpanToString_examples (day0 : Z) :
  let at_ h m s ms := day0 + Time.MakeTime h m s ms in
  timeSpanToString (at_ 10 0 0 0) (at_ 11 0 0 0) = "01:00:00.000"
  /\ timeSpanToString (at_ 10 0 0 0) (at_ 10 30 0 0) = "00:30:00.000"
  /\ timeSpanToString (at_ 10 0 0 0) (at_ 10 0 20 0) = "00:00:20.000"
  /\ timeSpanToString (at_ 10 0 0 0) (at_ 10 0 0 250) = "00:00:00.250"
  /\ timeSpanToString (at_ 10 0 0 0) (at_ 15 20 10 453) = "05:20:10.453".
Proof.
  cbv zeta. repeat split; rewrite timeSpanToString_spanOfDiff;
    (rewrite sub_same_day; [ | vm_compute; discriminate ]);
    vm_compute; reflexivity.
Qed.

(** C2, where the source departs from it: a span of one minute and a half,
    from 10:00:00 to 10:01:30 of any day, is printed as ["0-0:02:0-30.000"],
    while floor division and remainders give ["00:01:30.000"]; and so is a
    span of an hour and a half, ["02:0-30:00.000"] for ["01:30:00.000"].
    The quotient of the seconds by 60 is rounded to the nearest integer by
    [toFixed(0)], not down. *)
Theorem timeSpanToString_ninety_seconds (day0 : Z) :
  let at_ h m s ms := day0 + Time.MakeTime h m s ms in
  timeSpanToString (at_ 10 0 0 0) (at_ 10 1 30 0) = "0-0:02:0-30.000"
  /\ formatTimeSpan_spec 90000 = "00:01:30.000"
  /\ timeSpanToString (at_ 10 0 0 0) (at_ 11 30 0 0) = "02:0-30:00.000"
  /\ formatTimeSpan_spec 5400000 = "01:30:00.000".
Proof.
  cbv zeta. split; [ | split; [ | split ] ].
  - rewrite timeSpanToString_spanOfDiff.
    rewrite sub_same_day; [ | vm_compute; discriminate ].
    vm_compute. reflexivity.
  - vm_compute. reflexivity.
  - rewrite timeSpanToString_spanOfDiff.
    rewrite sub_same_day; [ | vm_compute; discriminate ].
    vm_compute. reflexivity.
  - vm_compute. reflexivity.
Qed.

Lemma only_app ok (a b : string) : only ok (a ++ b) = only ok a && only ok b.
Proof.
  induction a as [ | c a IH]; cbn; [reflexivity | ].
  rewrite IH. apply andb_assoc.
Qed.

Lemma only_impl (ok ok' : ascii -> bool) (s : string) :
  (forall c, ok c = true -> ok' c = true) -> only ok s = true -> only ok' s = true.
Proof.
  intros Himp. induction s as [ | c r IH]; cbn; [reflexivity | ].
  intros H. apply andb_true_iff in H. destruct H as [Hc Hr].
  rewrite (Himp c Hc), (IH Hr). reflexivity.
Qed.

(** A text splits in one way only at the first occurrence of a character. *)
Lemma split_first (c : ascii) (a a' b b' : string) :
  only (isNot c) a = true -> only (isNot c) a' = true ->
  a ++ String c b = a' ++ String c b' -> a = a' /\ b = b'.
Proof.
  revert a'. induction a as [ | x a IH]; intros [ | x' a']; cbn; intros Ha Ha' E.
  - injection E as E. split; [reflexivity | exact E].
  - injection E as Ex E. subst x'. apply andb_true_iff in Ha'. destruct Ha' as [Hx _].
    unfold isNot in Hx. rewrite Ascii.eqb_refl in Hx. discriminate.
  - injection E as Ex E. subst x. apply andb_true_iff in Ha. destruct Ha as [Hx _].
    unfold isNot in Hx. rewrite Ascii.eqb_refl in Hx. discriminate.
  - injection E as Ex E. subst x'.
    apply andb_true_iff in Ha. apply andb_true_iff in Ha'.
    destruct (IH a' (proj2 Ha) (proj2 Ha') E) as [-> ->]. split; reflexivity.
Qed.

Lemma digits_uint (d : Decimal.uint) : only isDigit (NilEmpty.string_of_uint d) = true.
Proof. induction d; cbn; try reflexivity; exact IHd. Qed.

Lemma digits_uint0 (d : Decimal.uint) : only isDigit (NilZero.string_of_uint d) = true.
Proof. destruct d; try reflexivity; cbn; apply digits_uint. Qed.

Lemma toString_nonneg (z : Z) : 0 <= z -> only isDigit (Num.toString z) = true.
Proof.
  intros Hz. unfold Num.toString. destruct z as [ | p | p]; [reflexivity | | lia].
  cbn. apply digits_uint0.
Qed.

Lemma toString_neg (z : Z) : z < 0 -> Num.toString z = String "-" (Num.toString (- z)).
Proof.
  intros Hz. destruct z as [ | p | p]; [lia | lia | ]. reflexivity.
Qed.

Lemma toString_numeric (z : Z) : only isNumeric (Num.toString z) = true.
Proof.
  assert (Hd : forall s, only isDigit s = true -> only isNumeric s = true).
  { intros s. apply only_impl. intros c Hc. unfold isNumeric. rewrite Hc. reflexivity. }
  destruct (Z.lt_ge_cases z 0) as [Hz | Hz].
  - rewrite (toString_neg z Hz). cbn. apply Hd, toString_nonneg. lia.
  - apply Hd, toString_nonneg, Hz.
Qed.

Lemma to_int_proper (z : Z) :
  Z.to_int z <> Decimal.Pos Decimal.Nil /\ Z.to_int z <> Decimal.Neg Decimal.Nil.
Proof.
  destruct z as [ | p | p]; cbn; split; try discriminate;
    intros E; injection E as E; exact (Unsigned.to_uint_nonnil p E).
Qed.

(** [ToNumber] reads back what [toString] prints. *)
Lemma ofString_toString (z : Z) : Num.ofString (Num.toString z) = Some z.
Proof.
  unfold Num.ofString, Num.toString.
  destruct (to_int_proper z) as [Hp Hn].
  rewrite (NilZero.isi _ Hp Hn). cbn. rewrite DecimalZ.of_to. reflexivity.
Qed.

Lemma toString_inj (a b : Z) : Num.toString a = Num.toString b -> a = b.
Proof.
  intros E. pose proof (ofString_toString a) as Ha. rewrite E, ofString_toString in Ha.
  injection Ha as Ha. symmetry. exact Ha.
Qed.

(** [Num.nearest a b] is the integer nearest to [a / b], the larger one of
    two: it is within a half of the quotient, above it when a half away. *)
Lemma nearest_spec (a b : Z) :
  0 < b -> 2 * a - b < 2 * b * Num.nearest a b <= 2 * a + b.
Proof.
  intros Hb. unfold Num.nearest.
  pose proof (Z.div_mod (2 * a + b) (2 * b) ltac:(lia)) as E.
  pose proof (Z.mod_pos_bound (2 * a + b) (2 * b) ltac:(lia)) as R.
  lia.
Qed.

(** The product of a printed quotient is the product of the nearest
    integer, with its sign. *)
Lemma js_mul_toFixed0 (a b k : Z) :
  0 <= a -> js_mul (Num.div_toFixed0 a b) k = Num.nearest a b * k.
Proof.
  intros Ha. unfold js_mul, Num.div_toFixed0.
  destruct (Z.ltb_spec a 0); [lia | ]. rewrite ofString_toString. reflexivity.
Qed.

Lemma div_toFixed0_numeric (a b : Z) : only isNumeric (Num.div_toFixed0 a b) = true.
Proof.
  unfold Num.div_toFixed0. destruct (a <? 0); cbn; apply toString_numeric.
Qed.

Lemma addZeros_numeric (v : value) :
  only isNumeric (ToString v) = true -> only isNumeric (ToString (addZeros v)) = true.
Proof.
  intros Hv. unfold addZeros. destruct (js_lt v 10); [ | exact Hv].
  cbn. exact Hv.
Qed.

Lemma numeric_isNot (c : ascii) (s : string) :
  isNumeric c = false -> only isNumeric s = true -> only (isNot c) s = true.
Proof.
  intros Hc. apply only_impl. intros x Hx. unfold isNot.
  destruct (Ascii.eqb_spec x c) as [-> | ]; [congruence | reflexivity].
Qed.

(** The four fields of the printed span. *)
Lemma spanOfDiff_fields (diff : Z) :
  let miliSecs := Num.rem diff 1000 in
  let allSecs := (diff - miliSecs) / 1000 in
  let secs := partOf allSecs in
  let mins := partOf ((allSecs - secs) / 60) in
  let hours := Num.div_toFixed0 (allSecs - mins * 60) 3600 in
  spanOfDiff diff
  = ToString (addZeros (VStr hours)) ++ ":" ++ ToString (addZeros (VNum mins))
      ++ ":" ++ ToString (addZeros (VNum secs)) ++ "." ++ msText miliSecs.
Proof. reflexivity. Qed.

(** Two printed spans are equal only when their seconds and their
    milliseconds are printed alike. *)
Lemma spanOfDiff_eq (d1 d2 : Z) :
  spanOfDiff d1 = spanOfDiff d2 ->
  let all1 := (d1 - Num.rem d1 1000) / 1000 in
  let all2 := (d2 - Num.rem d2 1000) / 1000 in
  ToString (addZeros (VNum (partOf all1))) = ToString (addZeros (VNum (partOf all2)))
  /\ msText (Num.rem d1 1000) = msText (Num.rem d2 1000).
Proof.
  rewrite !spanOfDiff_fields. cbv zeta. intros E.
  apply split_first in E;
    try (apply numeric_isNot; [reflexivity | ];
         apply addZeros_numeric; cbn; apply div_toFixed0_numeric).
  destruct E as [_ E].
  apply split_first in E;
    try (apply numeric_isNot; [reflexivity | ];
         apply addZeros_numeric; cbn; apply toString_numeric).
  destruct E as [_ E].
  apply split_first in E;
    try (apply numeric_isNot; [reflexivity | ];
         apply addZeros_numeric; cbn; apply toString_numeric).
  exact E.
Qed.

Lemma msText_nonneg (ms : Z) : 0 <= ms -> only isDigit (msText ms) = true.
Proof.
  intros Hms. unfold msText.
  destruct (ms <? 100); [destruct (ms <? 10) | ]; cbn; apply toString_nonneg, Hms.
Qed.

Lemma msText_neg (ms : Z) : ms < 0 -> only isDigit (msText ms) = false.
Proof.
  intros Hms. unfold msText.
  destruct (Z.ltb_spec ms 100); [ | lia]. destruct (Z.ltb_spec ms 10); [ | lia].
  rewrite (toString_neg ms Hms). reflexivity.
Qed.

Lemma addZeros_nonneg (v : Z) :
  0 <= v -> only isDigit (ToString (addZeros (VNum v))) = true.
Proof.
  intros Hv. unfold addZeros. destruct (js_lt (VNum v) 10); cbn;
    apply toString_nonneg, Hv.
Qed.

Lemma addZeros_neg (v : Z) :
  v < 0 ->
  ToString (addZeros (VNum v)) = String "0" (String "-" (Num.toString (- v))).
Proof.
  intros Hv. unfold addZeros, js_lt. cbn [ToNumber].
  destruct (Z.ltb_spec v 10); [ | lia]. cbn. rewrite (toString_neg v Hv). reflexivity.
Qed.

Lemma partOf_small (all : Z) : all < 60 -> partOf all = all.
Proof. intros H. unfold partOf. destruct (Z.ltb_spec all 60); [reflexivity | lia]. Qed.

Lemma partOf_large (all : Z) : 60 <= all -> -30 <= partOf all < 30.
Proof.
  intros H. unfold partOf. destruct (Z.ltb_spec all 60); [lia | ].
  rewrite js_mul_toFixed0 by lia. unfold Num.nearest.
  divmod.
Qed.

(** A span and the span the other way round are never printed alike. *)
Lemma spanOfDiff_pos (d : Z) : 0 < d -> spanOfDiff d <> spanOfDiff (- d).
Proof.
  intros Hd E. apply spanOfDiff_eq in E. cbv zeta in E. destruct E as [Hs Hms].
  unfold Num.rem in *. rewrite Z.rem_opp_l' in Hms, Hs.
  rewrite (Z.rem_mod_nonneg d 1000) in Hms, Hs by lia.
  pose proof (Z.mod_pos_bound d 1000 ltac:(lia)) as Hr.
  assert (Hz : d mod 1000 = 0).
  { destruct (Z.eq_dec (d mod 1000) 0) as [Hz | Hz]; [exact Hz | exfalso].
    pose proof (msText_nonneg (d mod 1000) ltac:(lia)) as H1.
    pose proof (msText_neg (- (d mod 1000)) ltac:(lia)) as H2.
    rewrite Hms in H1. congruence. }
  rewrite Hz in Hs. cbn [Z.opp] in Hs. rewrite !Z.sub_0_r in Hs.
  assert (Hn : 1 <= d / 1000 /\ - d / 1000 = - (d / 1000)).
  { divmod. }
  destruct Hn as [Hn Ho]. rewrite Ho in Hs.
  rewrite (partOf_small (- (d / 1000))) in Hs by lia.
  rewrite (addZeros_neg (- (d / 1000))) in Hs by lia.
  destruct (Z.lt_ge_cases (partOf (d / 1000)) 0) as [Hneg | Hpos].
  - rewrite (addZeros_neg _ Hneg) in Hs. injection Hs as Hs.
    apply toString_inj in Hs.
    destruct (Z.lt_ge_cases (d / 1000) 60) as [Hsmall | Hlarge].
    + rewrite partOf_small in Hneg by exact Hsmall. lia.
    + pose proof (partOf_large _ Hlarge). lia.
  - pose proof (addZeros_nonneg _ Hpos) as H1. rewrite Hs in H1. discriminate H1.
Qed.

Lemma spanOfDiff_opp (d : Z) : spanOfDiff d = spanOfDiff (- d) -> d = 0.
Proof.
  intros E. destruct (Z.lt_trichotomy d 0) as [Hlt | [Heq | Hgt]].
  - exfalso. apply (spanOfDiff_pos (- d)); [lia | ].
    rewrite Z.opp_involutive. symmetry. exact E.
  - exact Heq.
  - exfalso. exact (spanOfDiff_pos d Hgt E).
Qed.

Lemma round64_opp (z : Z) : Num.round64 (- z) = - Num.round64 z.
Proof.
  unfold Num.round64. rewrite Z.abs_opp, Z.even_opp.
  destruct (Z.abs z <=? Num.two53); [reflexivity | ].
  destruct (Z.even z) eqn:Ez; [reflexivity | ].
  assert (Hodd : Z.odd z = true) by (rewrite <- Z.negb_even, Ez; reflexivity).
  apply Z.odd_spec in Hodd. destruct Hodd as [k ->].
  replace ((2 * k + 1) / 2) with k by divmod.
  replace (- (2 * k + 1) / 2) with (- k - 1) by divmod.
  replace (- k - 1) with (- (k + 1)) by lia. rewrite Z.even_opp.
  replace (k + 1) with (Z.succ k) by lia. rewrite Z.even_succ, <- Z.negb_even.
  destruct (Z.even k); cbn [negb]; lia.
Qed.

Lemma round64_zero (z : Z) : Num.round64 z = 0 -> z = 0.
Proof.
  unfold Num.round64, Num.two53.
  destruct (Z.leb_spec (Z.abs z) (2 ^ 53)) as [H | H]; [intros E; exact E | ].
  assert (H' : 2 < Z.abs z) by (change (2 ^ 53) with 9007199254740992 in H; lia).
  destruct (Z.even z); [intros E; exact E | ].
  clear H. destruct (Z.even (z / 2)); intros E.
  - assert (z / 2 = 0) by lia. divmod.
  - assert (z / 2 = -1) by lia. divmod.
Qed.

Lemma forallb_upto (P : Z -> bool) (n : nat) (z : Z) :
  List.forallb P (upto n) = true -> 0 <= z < Z.of_nat n -> P z = true.
Proof.
  intros Hall Hz. rewrite forallb_forall in Hall. apply Hall, upto_In, Hz.
Qed.

Lemma addZeros_pad (v : Z) :
  0 <= v -> ToString (addZeros (VNum v)) = Text.ToZeroPaddedDecimalString v 2.
Proof.
  intros Hv. destruct (Z.lt_ge_cases v 100) as [Hlt | Hge].
  - apply String.eqb_eq. apply (forallb_upto padsAlike2 100 v); [ | lia].
    vm_compute. reflexivity.
  - unfold addZeros, js_lt, Text.ToZeroPaddedDecimalString. cbn [ToNumber].
    change (10 ^ Z.of_nat 2) with 100.
    destruct (Z.ltb_spec v 10); [lia | ]. destruct (Z.ltb_spec v 100); [lia | ].
    reflexivity.
Qed.

Lemma addZeros_text (v : Z) :
  0 <= v -> ToString (addZeros (VStr (Num.toString v))) = ToString (addZeros (VNum v)).
Proof.
  intros Hv. unfold addZeros, js_lt. cbn [ToNumber]. rewrite ofString_toString.
  destruct (v <? 10); reflexivity.
Qed.

Lemma msText_pad (v : Z) :
  0 <= v < 1000 -> msText v = Text.ToZeroPaddedDecimalString v 3.
Proof.
  intros Hv. apply String.eqb_eq. apply (forallb_upto padsAlike3 1000 v); [ | lia].
  vm_compute. reflexivity.
Qed.

(** Where the source and the specification agree: a span that is not
    negative is printed as floor division and remainders have it whenever
    the seconds within the minute are fewer than 30, or the span is shorter
    than a minute, and the same of the minutes within the hour. *)
Lemma timeSpanToString_low (startDate endDate : Z) :
  let diffMs := endDate - startDate in
  let seconds := diffMs / 1000 in
  let minutes := seconds / 60 in
  0 <= diffMs <= Num.two53 ->
  seconds < 60 \/ seconds mod 60 < 30 ->
  minutes < 60 \/ minutes mod 60 < 30 ->
  timeSpanToString startDate endDate = formatTimeSpan_spec diffMs.
Proof.
  intros d n a Hd Hs Hm.
  rewrite timeSpanToString_spanOfDiff, spanOfDiff_fields. cbv zeta.
  unfold Num.sub, Num.round64. fold d.
  destruct (Z.leb_spec (Z.abs d) Num.two53) as [_ | Hbig]; [ | lia].
  unfold Num.rem. rewrite (Z.rem_mod_nonneg d 1000) by lia.
  replace ((d - d mod 1000) / 1000) with n by (unfold n; divmod).
  assert (Hn : 0 <= n) by (unfold n; divmod).
  assert (Hsec : partOf n = n mod 60).
  { unfold partOf. destruct (Z.ltb_spec n 60) as [Hlt | Hge].
    - rewrite Z.mod_small by lia. reflexivity.
    - rewrite js_mul_toFixed0 by lia. unfold Num.nearest.
      divmod. }
  rewrite Hsec.
  replace ((n - n mod 60) / 60) with a by (unfold a; divmod).
  assert (Ha : 0 <= a) by (unfold a; divmod).
  assert (Hmin : partOf a = a mod 60).
  { unfold partOf. destruct (Z.ltb_spec a 60) as [Hlt | Hge].
    - rewrite Z.mod_small by lia. reflexivity.
    - rewrite js_mul_toFixed0 by lia. unfold Num.nearest.
      divmod. }
  rewrite Hmin.
  assert (Hh : Num.div_toFixed0 (n - a mod 60 * 60) 3600 = Num.toString (a / 60)).
  { unfold Num.div_toFixed0, Num.nearest.
    destruct (Z.ltb_spec (n - a mod 60 * 60) 0) as [Hneg | _].
    - exfalso. unfold a in *. divmod.
    - f_equal. unfold a in *. divmod. }
  rewrite Hh.
  assert (H60 : 0 <= a / 60) by divmod.
  rewrite addZeros_text by exact H60.
  rewrite !addZeros_pad by (try exact H60; apply Z.mod_pos_bound; lia).
  rewrite msText_pad by (apply Z.mod_pos_bound; lia).
  reflexivity.
Qed.

(** The two divisions of the source that are not rounded at once are exact:
    their dividends are multiples of their divisors. *)
Lemma allSecs_exact (diff : Z) : (1000 | diff - Num.rem diff 1000).
Proof.
  unfold Num.rem. exists (Z.quot diff 1000).
  pose proof (Z.quot_rem' diff 1000). lia.
Qed.

Lemma allMins_exact (allSecs : Z) : (60 | allSecs - partOf allSecs).
Proof.
  unfold partOf. destruct (Z.ltb_spec allSecs 60).
  - exists 0. lia.
  - rewrite js_mul_toFixed0 by lia. exists (Num.nearest allSecs 60). lia.
Qed.

(** C1, as it fails: the span from 10:00:00 to 10:00:00.250 is printed as
    ["00:00:00.250"], and the span from 10:00:00.250 back to 10:00:00 as
    ["00:00:00.00-250"]. *)
Lemma timeSpanToString_swap_differs :
  let a := 949399200000 in
  let b := 949399200250 in
  Date_local (H := plainHost) 2000 1 1 10 0 0 0 = Some a
  /\ Date_local (H := plainHost) 2000 1 1 10 0 0 250 = Some b
  /\ timeSpanToString a b = "00:00:00.250"
  /\ timeSpanToString b a = "00:00:00.00-250"
  /\ timeSpanToString a b <> timeSpanToString b a.
Proof.
  cbv zeta. repeat split; try (vm_compute; reflexivity).
  vm_compute. intros E. discriminate E.
Qed.

(** C1, as it holds: the source subtracts the start from the end and keeps
    the sign, so the two orders of the arguments are printed alike exactly
    when the two dates are the same instant. *)
Theorem timeSpanToString_swap (a b : Z) :
  timeSpanToString a b = timeSpanToString b a <-> a = b.
Proof.
  split.
  - rewrite !timeSpanToString_spanOfDiff. unfold Num.sub.
    replace (a - b) with (- (b - a)) by lia. rewrite round64_opp.
    intros E. apply spanOfDiff_opp in E. apply round64_zero in E. lia.
  - intros ->. reflexivity.
Qed.

(** ** The parsers *)

Lemma TimeClip_inv (x t : Z) :
  Time.TimeClip x = Some t -> x = t /\ Z.abs t <= Time.maxTime.
Proof.
  unfold Time.TimeClip.
  destruct (Z.ltb_spec Time.maxTime (Z.abs x)); [discriminate | ].
  intros E. injection E as <-. split; [reflexivity | assumption].
Qed.

Lemma Date_parse_valid (H : Host) (s : string) (t : Z) :
  Date_parse s = Some t -> Z.abs t <= Time.maxTime.
Proof.
  assert (Hhost : hostParse s = Some t -> Z.abs t <= Time.maxTime).
  { unfold hostParse. destruct (parseOther s) as [u | ]; cbn; [ | discriminate ].
    intros E. apply TimeClip_inv in E. tauto. }
  unfold Date_parse.
  destruct (Parse.isoFields s) as [[f | ] | ].
  - destruct (Parse.legal f); [ | exact Hhost ].
    intros E. apply TimeClip_inv in E. tauto.
  - exact Hhost.
  - destruct (Parse.utcString s) as [u | ]; [ | exact Hhost ].
    intros E. apply TimeClip_inv in E. tauto.
Qed.

Lemma parseDataFromRfc2822_rebuilt (H : Host) (s : string) (t : Z) :
  Date_ofString s = Some t ->
  parseDataFromRfc2822 s = Time.TimeClip (rebuilt t).
Proof.
  intros E. unfold parseDataFromRfc2822. rewrite E.
  unfold Date_UTC, getUTCFullYear, getUTCMonth, getUTCDate, getUTCHours,
    getUTCMinutes, getUTCSeconds, option_map, nan_bind, rebuilt.
  reflexivity.
Qed.

Section Rebuilt.
Import Time.

Lemma SecFromTime_range (t : Z) : 0 <= SecFromTime t < 60.
Proof. unfold SecFromTime. apply Z.mod_pos_bound. lia. Qed.

Lemma msFromTime_range (t : Z) : 0 <= msFromTime t < 1000.
Proof. unfold msFromTime. apply Z.mod_pos_bound. reflexivity. Qed.

Lemma rebuilt_thousand (t : Z) : rebuilt t mod 1000 = 0.
Proof.
  unfold rebuilt, MakeDate, MakeTime, msPerDay, msPerHour, msPerMinute,
    msPerSecond.
  generalize (MakeDay (fullYear (YearFromTime t)) (MonthFromTime t)
                (DateFromTime t)).
  generalize (HourFromTime t), (MinFromTime t), (SecFromTime t). intros.
  divmod.
Qed.

Lemma fullYear_far (y : Z) : ~ (0 <= y <= 99) -> fullYear y = y.
Proof.
  intros Hy. unfold fullYear.
  destruct (Z.leb_spec 0 y); destruct (Z.leb_spec y 99); cbn [andb];
    [lia | reflexivity | reflexivity | reflexivity].
Qed.

Lemma fullYear_near (y : Z) : 0 <= y <= 99 -> fullYear y = 1900 + y.
Proof.
  intros Hy. unfold fullYear.
  destruct (Z.leb_spec 0 y); destruct (Z.leb_spec y 99); cbn [andb];
    [reflexivity | lia | lia | lia].
Qed.

Lemma rebuilt_truncates (t : Z) :
  ~ (0 <= YearFromTime t <= 99) -> rebuilt t = t - t mod 1000.
Proof.
  intros Hy. unfold rebuilt. rewrite (fullYear_far _ Hy).
  rewrite TimeFacts.MakeDay_fields.
  pose proof (TimeFacts.time_fields t) as E.
  unfold MakeDate, MakeTime, msFromTime, msPerSecond in *. lia.
Qed.

Lemma rebuilt_range (t : Z) :
  Z.abs t <= maxTime -> Z.abs (rebuilt t) <= maxTime.
Proof.
  intros Ht.
  destruct (Z.le_gt_cases 0 (YearFromTime t)) as [H0 | H0];
    [destruct (Z.le_gt_cases (YearFromTime t) 99) as [H99 | H99] | ].
  - unfold rebuilt. rewrite fullYear_near by lia.
    pose proof (TimeFacts.MonthFromTime_range t) as Hm.
    pose proof (TimeFacts.DateFromTime_range t) as Hd.
    pose proof (HourFromTime_range t) as Hh.
    pose proof (MinFromTime_range t) as Hmi.
    pose proof (SecFromTime_range t) as Hs.
    unfold MakeDay.
    replace (MonthFromTime t / 12) with 0 by divmod.
    replace (MonthFromTime t mod 12) with (MonthFromTime t) by divmod.
    pose proof (TimeFacts.monthStart_bound (MonthFromTime t)
                  (if isLeap (1900 + YearFromTime t + 0) then 1 else 0) Hm
                  ltac:(destruct (isLeap _); lia)) as Hms.
    revert Hms. generalize (monthStart (MonthFromTime t)
                  (if isLeap (1900 + YearFromTime t + 0) then 1 else 0)).
    intros ms Hms.
    unfold MakeDate, MakeTime, DayFromYear, msPerDay, msPerHour, msPerMinute,
      msPerSecond, maxTime.
    divmod.
  - rewrite rebuilt_truncates by lia. unfold maxTime in *. divmod.
  - rewrite rebuilt_truncates by lia. unfold maxTime in *. divmod.
Qed.
End Rebuilt.

Lemma digit_cases (d : Z) :
  0 <= d < 10 ->
  d = 0 \/ d = 1 \/ d = 2 \/ d = 3 \/ d = 4 \/ d = 5 \/ d = 6 \/ d = 7 \/ d = 8 \/ d = 9.
Proof. lia. Qed.

Lemma digitVal_digitChar (d : Z) :
  0 <= d < 10 -> Text.digitVal (Text.digitChar d) = Some d.
Proof.
  intros Hd. apply digit_cases in Hd.
  repeat (destruct Hd as [-> | Hd]); try subst d; reflexivity.
Qed.

Lemma digitChar_isDigit (d : Z) : 0 <= d < 10 -> isDigit (Text.digitChar d) = true.
Proof.
  intros Hd. unfold isDigit. rewrite digitVal_digitChar by exact Hd.
  reflexivity.
Qed.

Lemma startsWith_digit (c : ascii) (d : Z) (r : string) :
  isDigit c = false -> 0 <= d < 10 ->
  Text.startsWith c (String (Text.digitChar d) r) = false.
Proof.
  intros Hc Hd. cbn [Text.startsWith].
  destruct (Ascii.eqb_spec (Text.digitChar d) c) as [E | ]; [ | reflexivity].
  rewrite <- E, digitChar_isDigit in Hc by exact Hd. discriminate.
Qed.

(** Reading [w] digits gives back a number printed on [w] digits. *)
Lemma digits_fixed (w : nat) (n acc : Z) (r : string) :
  0 <= n ->
  Text.digits w (Text.fixed w n ++ r) acc
  = Some (acc * 10 ^ Z.of_nat w + n mod 10 ^ Z.of_nat w, r).
Proof.
  intros Hn. revert acc. induction w as [ | w IH]; intros acc.
  - cbn [Text.digits Text.fixed append]. change (10 ^ Z.of_nat 0) with 1.
    rewrite Z.mod_1_r. f_equal. f_equal. lia.
  - cbn [Text.digits Text.fixed append].
    assert (Hp : 0 < 10 ^ Z.of_nat w) by (apply Z.pow_pos_nonneg; lia).
    rewrite digitVal_digitChar by (apply Z.mod_pos_bound; lia).
    rewrite IH. f_equal. f_equal.
    rewrite Nat2Z.inj_succ, Z.pow_succ_r by lia.
    rewrite (Z.mul_comm 10 (10 ^ Z.of_nat w)).
    rewrite (Z.rem_mul_r n (10 ^ Z.of_nat w) 10) by lia.
    ring.
Qed.

Lemma digits_fixed_small (w : nat) (n : Z) (r : string) :
  0 <= n < 10 ^ Z.of_nat w -> Text.digits w (Text.fixed w n ++ r) 0 = Some (n, r).
Proof.
  intros Hn. rewrite digits_fixed by lia. rewrite Z.mod_small by exact Hn. reflexivity.
Qed.

Lemma optField_fixed (c : ascii) (w : nat) (n : Z) (r : string) :
  0 <= n < 10 ^ Z.of_nat w ->
  Text.optField c w (String c (Text.fixed w n ++ r)) = Some (Some n, r).
Proof.
  intros Hn. unfold Text.optField. cbn [Text.startsWith Text.rest].
  rewrite Ascii.eqb_refl, digits_fixed_small by exact Hn. reflexivity.
Qed.

Lemma fixed_head (w : nat) (n : Z) (r : string) :
  Text.fixed (S w) n ++ r
  = String (Text.digitChar ((n / 10 ^ Z.of_nat w) mod 10)) (Text.fixed w n ++ r).
Proof. reflexivity. Qed.

Lemma isoYear_format (y : Z) (r : string) :
  -999999 <= y <= 999999 ->
  Parse.isoYear (Format.isoYear y ++ r) = Some (y, r).
Proof.
  intros Hy. unfold Format.isoYear, Parse.isoYear.
  destruct (Z.leb_spec 0 y) as [H0 | H0];
    [destruct (Z.leb_spec y 9999) as [H9 | H9] | ]; cbn [andb].
  - rewrite (fixed_head 3 y r).
    rewrite !startsWith_digit by (try reflexivity; apply Z.mod_pos_bound; lia).
    rewrite <- (fixed_head 3 y r). apply digits_fixed_small.
    fits.
  - cbn [append Text.startsWith Text.rest]. rewrite Ascii.eqb_refl.
    rewrite Z.abs_eq by lia. apply digits_fixed_small.
    fits.
  - cbn [append Text.startsWith Text.rest].
    change (Ascii.eqb "-" "+") with false. rewrite Ascii.eqb_refl. cbv iota.
    rewrite digits_fixed_small by fits.
    destruct (Z.eqb_spec (Z.abs y) 0); [lia | ]. f_equal. f_equal. lia.
Qed.

Lemma str_cons (c : ascii) (r : string) : String c "" ++ r = String c r.
Proof. reflexivity. Qed.

Lemma isoDate_format (y m d : Z) (r : string) :
  -999999 <= y <= 999999 -> 0 <= m < 100 -> 0 <= d < 100 ->
  Parse.isoDate (Format.isoYear y ++ "-" ++ Text.fixed 2 m ++ "-"
                   ++ Text.fixed 2 d ++ String "T" r)
  = Some (y, m, d, String "T" r).
Proof.
  intros Hy Hm Hd. unfold Parse.isoDate.
  rewrite isoYear_format by exact Hy. rewrite str_cons.
  rewrite optField_fixed by fits.
  rewrite str_cons.
  rewrite optField_fixed by fits.
  reflexivity.
Qed.


Lemma isoTime_format (h mi sec ms : Z) (r : string) :
  0 <= h < 100 -> 0 <= mi < 100 -> 0 <= sec < 100 -> 0 <= ms < 1000 ->
  Parse.isoTime (Text.fixed 2 h ++ ":" ++ Text.fixed 2 mi ++ ":"
                   ++ Text.fixed 2 sec ++ "." ++ Text.fixed 3 ms ++ r)
  = Some (h, mi, sec, ms, r).
Proof.
  intros Hh Hmi Hs Hms. unfold Parse.isoTime.
  rewrite digits_fixed_small by fits.
  rewrite str_cons.
  rewrite optField_fixed by fits.
  rewrite str_cons.
  rewrite optField_fixed by fits.
  rewrite str_cons.
  rewrite optField_fixed by fits.
  reflexivity.
Qed.

Lemma fixed_nil (w : nat) (n : Z) : Text.fixed w n ++ "" = Text.fixed w n.
Proof. induction w as [ | w IH]; cbn; [reflexivity | ]. f_equal. exact IH. Qed.

Lemma isoOffset_format (off : Z) :
  Z.abs off < 1440 ->
  Parse.isoOffset ((if 0 <=? off then "+" else "-")
                     ++ Text.fixed 2 (Z.abs off / 60) ++ ":"
                     ++ Text.fixed 2 (Z.abs off mod 60))
  = Some (Some (Some off)).
Proof.
  intros Hoff.
  assert (Hq : 0 <= Z.abs off / 60 < 24) by divmod.
  assert (Hr : 0 <= Z.abs off mod 60 < 60) by (apply Z.mod_pos_bound; lia).
  assert (Hd : Z.abs off = Z.abs off / 60 * 60 + Z.abs off mod 60)
    by divmod.
  rewrite <- (fixed_nil 2 (Z.abs off mod 60)).
  unfold Parse.isoOffset.
  assert (Hpm : Ascii.eqb "+" "-" = false) by reflexivity.
  assert (Hmp : Ascii.eqb "-" "+" = false) by reflexivity.
  assert (Hpz : Ascii.eqb "+" "Z" = false) by reflexivity.
  assert (Hmz : Ascii.eqb "-" "Z" = false) by reflexivity.
  destruct (Z.leb_spec 0 off) as [H0 | H0]; rewrite str_cons;
    cbn [String.eqb Text.startsWith Text.rest];
    rewrite ?Ascii.eqb_refl, ?Hpm, ?Hmp, ?Hpz, ?Hmz; cbn [orb];
    (rewrite digits_fixed_small by fits);
    rewrite str_cons;
    (rewrite optField_fixed by fits);
    cbn [String.eqb];
    (destruct (Z.leb_spec (Z.abs off / 60) 23); [ | lia]);
    (destruct (Z.leb_spec (Z.abs off mod 60) 59); [ | lia]);
    cbn [andb]; do 3 f_equal; lia.
Qed.

Lemma YearFromTime_wide (t : Z) :
  Z.abs t <= Time.maxTime + Time.msPerDay ->
  -999999 <= Time.YearFromTime t <= 999999.
Proof.
  intros Ht. unfold Time.YearFromTime.
  pose proof (TimeFacts.YearFromDay_spec (Time.Day t)) as H.
  assert (Hd : -100000001 <= Time.Day t <= 100000001).
  { unfold Time.Day, Time.msPerDay, Time.maxTime in *. divmod. }
  revert H. generalize (Time.YearFromDay (Time.Day t)). intros y [H1 H2].
  rewrite TimeFacts.DayFromYear_succ in H2.
  assert (Hy : Time.DaysInYear y <= 366)
    by (unfold Time.DaysInYear; destruct (Time.isLeap y); lia).
  unfold Time.DayFromYear in *. divmod.
Qed.

(** The fields that [Date.parse] reads in a date-time printed with the
    fields of [l] and the tail [r]. *)
Lemma isoFields_format (l : Z) (r : string) (off : option Z) :
  Z.abs l <= Time.maxTime + Time.msPerDay ->
  Parse.isoOffset r = Some (Some off) ->
  Parse.isoFields
    (Format.isoYear (Time.YearFromTime l) ++ "-"
       ++ Text.fixed 2 (Time.MonthFromTime l + 1) ++ "-"
       ++ Text.fixed 2 (Time.DateFromTime l) ++ "T"
       ++ Text.fixed 2 (Time.HourFromTime l) ++ ":"
       ++ Text.fixed 2 (Time.MinFromTime l) ++ ":"
       ++ Text.fixed 2 (Time.SecFromTime l) ++ "."
       ++ Text.fixed 3 (Time.msFromTime l) ++ r)
  = Some (Some {| Parse.year := Time.YearFromTime l;
                  Parse.month := Time.MonthFromTime l + 1;
                  Parse.day := Time.DateFromTime l;
                  Parse.time := Some (Time.HourFromTime l, Time.MinFromTime l,
                                      Time.SecFromTime l, Time.msFromTime l);
                  Parse.offset := off |}).
Proof.
  intros Hl Hoff.
  pose proof (YearFromTime_wide l Hl) as Hy.
  pose proof (TimeFacts.MonthFromTime_range l) as Hm.
  pose proof (TimeFacts.DateFromTime_range l) as Hd.
  pose proof (HourFromTime_range l) as Hh.
  pose proof (MinFromTime_range l) as Hmi.
  pose proof (SecFromTime_range l) as Hs.
  pose proof (msFromTime_range l) as Hms.
  unfold Parse.isoFields.
  rewrite (str_cons "T").
  rewrite isoDate_format by lia.
  change (String.eqb (String "T" ?r) "") with false.
  unfold Text.expect. cbn [Text.startsWith Text.rest]. rewrite Ascii.eqb_refl.
  rewrite isoTime_format by lia.
  rewrite Hoff. reflexivity.
Qed.

(** The time value of the fields of [l] read at the offset [off]. *)
Lemma timeOf_fields (H : Host) (l off : Z) :
  let f := {| Parse.year := Time.YearFromTime l;
              Parse.month := Time.MonthFromTime l + 1;
              Parse.day := Time.DateFromTime l;
              Parse.time := Some (Time.HourFromTime l, Time.MinFromTime l,
                                  Time.SecFromTime l, Time.msFromTime l);
              Parse.offset := Some off |} in
  Parse.legal f = true /\ Parse.timeOf f = l - off * Time.msPerMinute.
Proof.
  pose proof (TimeFacts.MonthFromTime_range l) as Hm.
  pose proof (TimeFacts.DateFromTime_range l) as Hd.
  pose proof (HourFromTime_range l) as Hh.
  pose proof (MinFromTime_range l) as Hmi.
  pose proof (SecFromTime_range l) as Hs.
  cbv zeta. split.
  - unfold Parse.legal. cbn [Parse.month Parse.day Parse.time].
    repeat (apply andb_true_iff; split); try (apply Z.leb_le; lia).
    apply orb_true_iff. left. apply Z.ltb_lt. lia.
  - unfold Parse.timeOf.
    cbn [Parse.year Parse.month Parse.day Parse.time Parse.offset].
    replace (Time.MonthFromTime l + 1 - 1) with (Time.MonthFromTime l) by lia.
    rewrite TimeFacts.MakeDay_fields, TimeFacts.time_fields. reflexivity.
Qed.

Lemma Date_parse_toISOString (H : Host) (t : Z) :
  Z.abs t <= Time.maxTime -> Date_parse (Format.toISOString t) = Some t.
Proof.
  intros Ht. unfold Date_parse, Format.toISOString.
  rewrite (isoFields_format t "Z" (Some 0))
    by (try reflexivity; unfold Time.msPerDay; lia).
  destruct (timeOf_fields H t 0) as [Hl Ht0]. rewrite Hl, Ht0.
  rewrite Z.mul_0_l, Z.sub_0_r. apply TimeClip_valid, Ht.
Qed.

Lemma Date_parse_formatIso8601_spec (H : Host) (off t : Z) :
  Z.abs t <= Time.maxTime -> Z.abs off < 1440 ->
  Date_parse (formatIso8601_spec off t) = Some t.
Proof.
  intros Ht Hoff. unfold Date_parse, formatIso8601_spec. cbv zeta.
  rewrite (isoFields_format (t + off * Time.msPerMinute) _ (Some off)).
  - destruct (timeOf_fields H (t + off * Time.msPerMinute) off) as [Hl Ht0].
    rewrite Hl, Ht0.
    replace (t + off * Time.msPerMinute - off * Time.msPerMinute) with t by lia.
    apply TimeClip_valid, Ht.
  - unfold Time.msPerDay, Time.msPerMinute, Time.maxTime in *. lia.
  - apply isoOffset_format, Hoff.
Qed.

(** The two outcomes of [parseDataFromRfc2822]: NaN from the invalid
    date, and from a valid one the date rebuilt from its fields. *)
Lemma parseDataFromRfc2822_nan (H : Host) (s : string) :
  Date_ofString s = None -> parseDataFromRfc2822 s = None.
Proof. intros E. unfold parseDataFromRfc2822. rewrite E. reflexivity. Qed.

Lemma parseDataFromRfc2822_some (H : Host) (s : string) (t : Z) :
  Date_ofString s = Some t -> parseDataFromRfc2822 s = Some (rebuilt t).
Proof.
  intros E. rewrite (parseDataFromRfc2822_rebuilt H s t E).
  apply TimeClip_valid, rebuilt_range, (Date_parse_valid H s t E).
Qed.

(** C10.  Whatever the host and the string: when the string is not a date
    for [new Date], the result is NaN; when it is the date of time value
    [t], the result is a Number [r] of whole seconds, [r mod 1000 = 0], and
    it is [t] with its milliseconds cut off, [t - t mod 1000], unless the
    UTC year of [t] is one of 0 to 99, which [Date.UTC] reads as 1900 to
    1999. *)
Theorem parseDataFromRfc2822_whole_seconds (H : Host) (s : string) :
  (Date_ofString s = None -> parseDataFromRfc2822 s = None)
  /\ (forall t, Date_ofString s = Some t ->
        exists r, parseDataFromRfc2822 s = Some r /\ r mod 1000 = 0
                  /\ (~ (0 <= Time.YearFromTime t <= 99) -> r = t - t mod 1000)).
Proof.
  split.
  - apply parseDataFromRfc2822_nan.
  - intros t E. exists (rebuilt t). split; [ | split ].
    + apply parseDataFromRfc2822_some, E.
    + apply rebuilt_thousand.
    + apply rebuilt_truncates.
Qed.




(** Both functions hand the string to [new Date], so each of them reads the
    format of the other as well, on every host. *)
Lemma parsers_share_formats (H : Host) :
  parseDataFromIso8601 "Tue, 26 Jan 2016 13:48:02 GMT" = Some 1453816082000
  /\ parseDataFromRfc2822 "2016-01-19T16:07:37+00:00" = Some 1453219657000
  /\ parseDataFromIso8601 "2016-01-19T08:07:37Z" = Some 1453190857000.
Proof. repeat split; vm_compute; reflexivity. Qed.


Lemma append_assoc_text (a b c : string) : (a ++ b) ++ c = a ++ b ++ c.
Proof.
  induction a as [ | x a IH]; cbn; [reflexivity | rewrite IH; reflexivity].
Qed.

Lemma optField_absent (c : ascii) (w : nat) (r : string) :
  Text.startsWith c r = false -> Text.optField c w r = Some (None, r).
Proof. intros Hr. unfold Text.optField. rewrite Hr. reflexivity. Qed.

(** A zone text starts with none of the marks of the fields of a time. *)
Lemma zoneText_start (z : zone) :
  Text.startsWith ":" (zoneText z) = false
  /\ Text.startsWith "." (zoneText z) = false.
Proof.
  destruct z as [ | off]; [split; reflexivity | ].
  unfold zoneText. destruct (0 <=? off); split; reflexivity.
Qed.

Lemma isoOffset_zoneText (z : zone) :
  Z.abs (zoneMinutes z) < 1440 ->
  Parse.isoOffset (zoneText z) = Some (Some (Some (zoneMinutes z))).
Proof.
  destruct z as [ | off]; [reflexivity | ].
  intros Hz. apply isoOffset_format, Hz.
Qed.

(** The time of day that [Date.parse] reads in a time text followed by a
    zone: the fields of [l], those left out being zero. *)
Lemma isoTime_timeText (p : precision) (l : Z) (r : string) :
  Text.startsWith ":" r = false -> Text.startsWith "." r = false ->
  Parse.isoTime (timeText p l ++ r)
  = Some (Time.HourFromTime l, Time.MinFromTime l,
          match p with ToMinutes => 0 | _ => Time.SecFromTime l end,
          match p with ToMillis => Time.msFromTime l | _ => 0 end, r).
Proof.
  intros Hc Hd.
  pose proof (HourFromTime_range l) as Hh.
  pose proof (MinFromTime_range l) as Hmi.
  pose proof (SecFromTime_range l) as Hs.
  pose proof (msFromTime_range l) as Hms.
  destruct p; unfold timeText, Parse.isoTime; rewrite !append_assoc_text;
    rewrite digits_fixed_small by fits; rewrite str_cons;
    rewrite optField_fixed by fits.
  - rewrite (optField_absent ":" 2 r Hc). reflexivity.
  - rewrite str_cons. rewrite optField_fixed by fits.
    rewrite (optField_absent "." 3 r Hd). reflexivity.
  - rewrite str_cons. rewrite optField_fixed by fits.
    rewrite str_cons. rewrite optField_fixed by fits. reflexivity.
Qed.

(** The fields of a time of day that are zero when the instant has nothing
    below the precision of its text. *)
Lemma exactTo_fields (p : precision) (zm t : Z) :
  exactTo p t ->
  let l := t + zm * Time.msPerMinute in
  match p with ToMinutes => 0 | _ => Time.SecFromTime l end = Time.SecFromTime l
  /\ match p with ToMillis => Time.msFromTime l | _ => 0 end = Time.msFromTime l.
Proof.
  intros Hp l. unfold l.
  destruct p; cbn [exactTo] in Hp; split; try reflexivity;
    unfold Time.SecFromTime, Time.msFromTime, Time.msPerMinute,
      Time.msPerSecond in *; divmod.
Qed.

(** An ISO 8601 date-time with an explicit zone is read as the instant it
    denotes, on every host. *)
Lemma Date_parse_iso8601Text (H : Host) (p : precision) (z : zone) (t : Z) :
  Z.abs t <= Time.maxTime -> zoneOk z -> exactTo p t ->
  Date_parse (iso8601Text p z t) = Some t.
Proof.
  intros Ht Hz Hp. unfold zoneOk in Hz.
  unfold Date_parse, iso8601Text. cbv zeta.
  set (l := t + zoneMinutes z * Time.msPerMinute).
  assert (Hl : Z.abs l <= Time.maxTime + Time.msPerDay)
    by (unfold l, Time.msPerDay, Time.msPerMinute, Time.maxTime in *; lia).
  pose proof (YearFromTime_wide l Hl) as Hy.
  pose proof (TimeFacts.MonthFromTime_range l) as Hm.
  pose proof (TimeFacts.DateFromTime_range l) as Hd.
  destruct (zoneText_start z) as [Hc Hdot].
  unfold Parse.isoFields. rewrite (str_cons "T").
  rewrite isoDate_format by lia.
  change (String.eqb (String "T" ?r) "") with false.
  unfold Text.expect. cbn [Text.startsWith Text.rest]. rewrite Ascii.eqb_refl.
  rewrite (isoTime_timeText p l _ Hc Hdot).
  rewrite (isoOffset_zoneText z Hz).
  destruct (exactTo_fields p (zoneMinutes z) t Hp) as [Es Ems].
  fold l in Es, Ems. rewrite Es, Ems.
  destruct (timeOf_fields H l (zoneMinutes z)) as [Hlegal Htime].
  rewrite Hlegal, Htime. unfold l.
  replace (t + zoneMinutes z * Time.msPerMinute - zoneMinutes z * Time.msPerMinute)
    with t by lia.
  apply TimeClip_valid, Ht.
Qed.

(** C8.  On every host: a well-formed ISO 8601 date-time with an explicit
    zone, [Z] or an offset, written down to the minutes, the seconds or
    the milliseconds, is parsed as the instant [t] that it denotes; and
    the parsed value, formatted again with any offset below a day or by
    [toISOString], makes a string that is parsed as [t] too. *)
Theorem parseDataFromIso8601_roundtrip
  (H : Host) (p : precision) (z : zone) (t : Z) :
  Z.abs t <= Time.maxTime -> zoneOk z -> exactTo p t ->
  parseDataFromIso8601 (iso8601Text p z t) = Some t
  /\ (forall d off : Z,
        parseDataFromIso8601 (iso8601Text p z t) = Some d ->
        Z.abs off < 1440 ->
        parseDataFromIso8601 (formatIso8601_spec off d) = Some t
        /\ parseDataFromIso8601 (Format.toISOString d) = Some t).
Proof.
  intros Ht Hz Hp.
  pose proof (Date_parse_iso8601Text H p z t Ht Hz Hp) as E.
  split; [exact E | ].
  intros d off Ed Hoff. unfold parseDataFromIso8601, Date_ofString in Ed.
  rewrite E in Ed. injection Ed as <-. split.
  - apply Date_parse_formatIso8601_spec; assumption.
  - apply Date_parse_toISOString, Ht.
Qed.

Lemma parseDataFromIso8601_roundtrip_witness :
  let H := zoneHost 7200000 in
  iso8601Text ToSeconds (ZoneOffset 0) 1453219657000 = "2016-01-19T16:07:37+00:00"
  /\ iso8601Text ToSeconds ZoneZ 1453190857000 = "2016-01-19T08:07:37Z"
  /\ parseDataFromIso8601 "2016-01-19T16:07:37+00:00" = Some 1453219657000
  /\ formatIso8601_spec (-330) 1453219657000 = "2016-01-19T10:37:37.000-05:30"
  /\ parseDataFromIso8601 "2016-01-19T10:37:37.000-05:30" = Some 1453219657000
  /\ parseDataFromIso8601 "2016-01-19T08:07:37Z" = Some 1453190857000.
Proof.
  cbv zeta.
  destruct (parseDataFromIso8601_roundtrip (zoneHost 7200000) ToSeconds
              (ZoneOffset 0) 1453219657000
              ltac:(vm_compute; discriminate) ltac:(reflexivity) eq_refl)
    as [H1 H2].
  destruct (parseDataFromIso8601_roundtrip (zoneHost 7200000) ToSeconds
              ZoneZ 1453190857000
              ltac:(vm_compute; discriminate) ltac:(reflexivity) eq_refl)
    as [H3 _].
  split; [reflexivity | split; [reflexivity | split; [exact H1 | ] ] ].
  split; [reflexivity | split; [ | exact H3 ] ].
  exact (proj1 (H2 1453219657000 (-330) H1 ltac:(reflexivity))).
Defined.

(* ================================================================== *)
(** * Part VI: further properties of the five functions *)
(* ================================================================== *)

(** ** Time spans, again *)

Lemma digits_noMinus (s : string) : only isDigit s = true -> noMinus s = true.
Proof.
  unfold noMinus. apply only_impl. intros c Hc. unfold isNot.
  destruct (Ascii.eqb_spec c "-") as [-> | ]; [discriminate Hc | reflexivity].
Qed.

Lemma fixed_isDigit (w : nat) (n : Z) : only isDigit (Text.fixed w n) = true.
Proof.
  induction w as [ | w IH]; [reflexivity | ].
  cbn [Text.fixed only]. rewrite IH, digitChar_isDigit; [reflexivity | ].
  apply Z.mod_pos_bound. lia.
Qed.

Lemma pad_isDigit (n : Z) (w : nat) :
  0 <= n -> only isDigit (Text.ToZeroPaddedDecimalString n w) = true.
Proof.
  intros Hn. unfold Text.ToZeroPaddedDecimalString.
  destruct (n <? 10 ^ Z.of_nat w); [apply fixed_isDigit | apply toString_nonneg, Hn].
Qed.

(** What floor division and remainders print holds no minus sign. *)
Lemma formatTimeSpan_spec_noMinus (d : Z) :
  0 <= d -> noMinus (formatTimeSpan_spec d) = true.
Proof.
  intros Hd. unfold formatTimeSpan_spec, noMinus. cbv zeta.
  rewrite !only_app. cbn [only].
  assert (H1 : 0 <= d / 1000 / 60 / 60) by (repeat apply Z.div_pos; lia).
  assert (H2 : 0 <= (d / 1000 / 60) mod 60) by (apply Z.mod_pos_bound; lia).
  assert (H3 : 0 <= (d / 1000) mod 60) by (apply Z.mod_pos_bound; lia).
  assert (H4 : 0 <= d mod 1000) by (apply Z.mod_pos_bound; lia).
  fold (noMinus (Text.ToZeroPaddedDecimalString (d / 1000 / 60 / 60) 2)).
  fold (noMinus (Text.ToZeroPaddedDecimalString ((d / 1000 / 60) mod 60) 2)).
  fold (noMinus (Text.ToZeroPaddedDecimalString ((d / 1000) mod 60) 2)).
  fold (noMinus (Text.ToZeroPaddedDecimalString (d mod 1000) 3)).
  rewrite !digits_noMinus by (apply pad_isDigit; assumption).
  reflexivity.
Qed.

Lemma addZeros_minus (v : Z) :
  v < 0 -> noMinus (ToString (addZeros (VNum v))) = false.
Proof. intros Hv. rewrite (addZeros_neg v Hv). reflexivity. Qed.

Lemma msText_minus (ms : Z) : ms < 0 -> noMinus (msText ms) = false.
Proof.
  intros Hms. unfold msText.
  destruct (Z.ltb_spec ms 100); [ | lia]. destruct (Z.ltb_spec ms 10); [ | lia].
  rewrite (toString_neg ms Hms). reflexivity.
Qed.

(** The printed span holds a minus sign as soon as its seconds, its minutes
    or its milliseconds are negative. *)
Lemma spanOfDiff_minus (diff : Z) :
  let miliSecs := Num.rem diff 1000 in
  let allSecs := (diff - miliSecs) / 1000 in
  let secs := partOf allSecs in
  let mins := partOf ((allSecs - secs) / 60) in
  miliSecs < 0 \/ secs < 0 \/ mins < 0 -> noMinus (spanOfDiff diff) = false.
Proof.
  intros ms n secs mins Hneg. rewrite spanOfDiff_fields. fold ms n secs mins.
  unfold noMinus. rewrite !only_app. cbn [only].
  fold (noMinus (ToString (addZeros (VNum mins)))).
  fold (noMinus (ToString (addZeros (VNum secs)))).
  fold (noMinus (msText ms)).
  destruct Hneg as [H | [H | H]].
  - rewrite (msText_minus ms H). rewrite !andb_false_r. reflexivity.
  - rewrite (addZeros_minus secs H). rewrite !andb_false_r. reflexivity.
  - rewrite (addZeros_minus mins H). rewrite !andb_false_r. reflexivity.
Qed.

Lemma partOf_high (all : Z) :
  60 <= all -> 30 <= all mod 60 -> partOf all = all mod 60 - 60.
Proof.
  intros H60 H30. unfold partOf. destruct (Z.ltb_spec all 60); [lia | ].
  rewrite js_mul_toFixed0 by lia. unfold Num.nearest. divmod.
Qed.

Lemma partOf_low (all : Z) :
  0 <= all -> all < 60 \/ all mod 60 < 30 -> partOf all = all mod 60.
Proof.
  intros H0 Hlow. unfold partOf. destruct (Z.ltb_spec all 60).
  - rewrite Z.mod_small by lia. reflexivity.
  - rewrite js_mul_toFixed0 by lia. unfold Num.nearest. divmod.
Qed.

Lemma sub_exact (a b : Z) : Z.abs (a - b) <= Num.two53 -> Num.sub a b = a - b.
Proof.
  intros H. unfold Num.sub, Num.round64.
  destruct (Z.leb_spec (Z.abs (a - b)) Num.two53); [reflexivity | lia].
Qed.

(** X1.  For a span that is not negative (and below 2^53 milliseconds),
    the source prints what floor division and remainders give exactly when
    the seconds within the minute are fewer than 30 or the span is shorter
    than a minute, and the minutes within the hour are fewer than 30 or
    the span is shorter than an hour. *)
Theorem timeSpanToString_agrees (startDate endDate : Z) :
  let diffMs := endDate - startDate in
  let seconds := diffMs / 1000 in
  let minutes := seconds / 60 in
  0 <= diffMs <= Num.two53 ->
  (timeSpanToString startDate endDate = formatTimeSpan_spec diffMs
   <-> (seconds < 60 \/ seconds mod 60 < 30)
       /\ (minutes < 60 \/ minutes mod 60 < 30)).
Proof.
  intros d n a Hd. split.
  - intros E.
    assert (Hclean : noMinus (timeSpanToString startDate endDate) = true)
      by (rewrite E; apply formatTimeSpan_spec_noMinus; lia).
    rewrite timeSpanToString_spanOfDiff, sub_exact in Hclean by (fold d; lia).
    fold d in Hclean.
    assert (Hn : 0 <= n) by (unfold n; divmod).
    assert (Ha : 0 <= a) by (unfold a; divmod).
    assert (Hall : (d - Num.rem d 1000) / 1000 = n).
    { unfold Num.rem. rewrite Z.rem_mod_nonneg by lia. unfold n. divmod. }
    destruct (Z.lt_ge_cases n 60) as [Hn60 | Hn60];
      [ | destruct (Z.lt_ge_cases (n mod 60) 30) as [Hn30 | Hn30] ].
    + split; [left; exact Hn60 | left; unfold a; divmod].
    + split; [right; exact Hn30 | ].
      destruct (Z.lt_ge_cases a 60) as [Ha60 | Ha60]; [left; exact Ha60 | ].
      destruct (Z.lt_ge_cases (a mod 60) 30) as [Ha30 | Ha30]; [right; exact Ha30 | ].
      exfalso. rewrite spanOfDiff_minus in Hclean; [discriminate | ].
      cbv zeta. rewrite Hall. right. right.
      rewrite (partOf_low n) by lia.
      replace ((n - n mod 60) / 60) with a by (unfold a; divmod).
      rewrite partOf_high by assumption.
      pose proof (Z.mod_pos_bound a 60 ltac:(lia)). lia.
    + exfalso. rewrite spanOfDiff_minus in Hclean; [discriminate | ].
      cbv zeta. rewrite Hall. right. left.
      rewrite partOf_high by assumption.
      pose proof (Z.mod_pos_bound n 60 ltac:(lia)). lia.
  - intros [Hs Hm]. apply timeSpanToString_low; assumption.
Qed.

Lemma timeSpanToString_agrees_witness :
  timeSpanToString 949399200000 949418410453 = formatTimeSpan_spec 19210453
  /\ formatTimeSpan_spec 19210453 = "05:20:10.453".
Proof.
  split; [ | reflexivity].
  apply (proj2 (timeSpanToString_agrees 949399200000 949418410453
                  ltac:(vm_compute; split; discriminate))).
  split; right; vm_compute; reflexivity.
Defined.

Lemma round64_neg (z : Z) : z < 0 -> Num.round64 z < 0.
Proof.
  intros Hz. unfold Num.round64, Num.two53.
  destruct (Z.leb_spec (Z.abs z) (2 ^ 53)) as [H | H]; [exact Hz | ].
  assert (H' : z < -4) by (change (2 ^ 53) with 9007199254740992 in H; lia).
  clear H. destruct (Z.even z); [exact Hz | ].
  destruct (Z.even (z / 2)); divmod.
Qed.

(** X2.  When the end is before the start, the printed span holds a minus
    sign; so it is never what floor division and remainders print for a
    span, whichever span. *)
Theorem timeSpanToString_backwards (startDate endDate : Z) :
  endDate < startDate ->
  noMinus (timeSpanToString startDate endDate) = false
  /\ forall diffMs, 0 <= diffMs ->
       timeSpanToString startDate endDate <> formatTimeSpan_spec diffMs.
Proof.
  intros Hlt.
  assert (Hm : noMinus (timeSpanToString startDate endDate) = false).
  { rewrite timeSpanToString_spanOfDiff. unfold Num.sub.
    pose proof (round64_neg (endDate - startDate) ltac:(lia)) as Hd.
    revert Hd. generalize (Num.round64 (endDate - startDate)). intros d Hd.
    apply spanOfDiff_minus. cbv zeta. unfold Num.rem.
    pose proof (Z.rem_bound_pos_neg d 1000 ltac:(lia) ltac:(lia)) as Hr.
    destruct (Z.eq_dec (Z.rem d 1000) 0) as [E | E]; [ | left; lia].
    right. left. rewrite E, Z.sub_0_r.
    assert (Hq : d / 1000 < 0) by divmod.
    rewrite partOf_small by lia. exact Hq. }
  split; [exact Hm | ].
  intros diffMs Hdiff E. rewrite E, formatTimeSpan_spec_noMinus in Hm by exact Hdiff.
  discriminate.
Qed.

Lemma timeSpanToString_backwards_witness :
  noMinus (timeSpanToString 949399200250 949399200000) = false.
Proof.
  exact (proj1 (timeSpanToString_backwards 949399200250 949399200000 eq_refl)).
Defined.

(** ** The clock and the leap years, again *)

Lemma sameHalfDayLater_all : everyMinute sameHalfDayLater = true.
Proof. vm_compute. reflexivity. Qed.

Lemma nearHalfDayLater_all : everyMinute nearHalfDayLater = true.
Proof. vm_compute. reflexivity. Qed.

Lemma extremesAt_all : everyMinute extremesAt = true.
Proof. vm_compute. reflexivity. Qed.

Lemma halfDay_fields (t : Z) :
  Time.HourFromTime (t + halfDay) = (Time.HourFromTime t + 12) mod 24
  /\ Time.MinFromTime (t + halfDay) = Time.MinFromTime t.
Proof.
  unfold Time.HourFromTime, Time.MinFromTime, halfDay, Time.msPerHour,
    Time.msPerMinute. split; divmod.
Qed.

(** X4.  Twelve hours later the angle is the same, bit for bit, unless the
    UTC hour is 0 or 12; from these two hours it is the same within
    2^-50, the source leaving the hour 12 as it is. *)
Theorem angleBetweenClockHands_half_day (t : Z) :
  Z.abs t <= Time.maxTime -> Z.abs (t + halfDay) <= Time.maxTime ->
  (Time.HourFromTime t mod 12 <> 0 ->
   angleBetweenClockHands (Some (t + halfDay)) = angleBetweenClockHands (Some t))
  /\ (PrimFloat.abs (angleBetweenClockHands (Some (t + halfDay)%Z)
                     - angleBetweenClockHands (Some t)) <=? 0x1p-50)%float = true.
Proof.
  intros Ht Ht'. rewrite !angleBetweenClockHands_angleOf by assumption.
  destruct (halfDay_fields t) as [-> ->].
  pose proof (HourFromTime_range t) as Hh. pose proof (MinFromTime_range t) as Hm.
  split.
  - intros Hne.
    pose proof (everyMinute_sound _ sameHalfDayLater_all _ _ Hh Hm) as H.
    unfold sameHalfDayLater in H. apply orb_true_iff in H. destruct H as [H | H].
    + apply Z.eqb_eq in H. contradiction.
    + apply FloatAxioms.Leibniz.eqb_spec. exact H.
  - exact (everyMinute_sound _ nearHalfDayLater_all _ _ Hh Hm).
Qed.

Lemma angleBetweenClockHands_half_day_witness :
  let t := 1459825380000 in
  Time.HourFromTime t = 3 /\ Time.MinFromTime t = 3
  /\ angleBetweenClockHands (Some (t + halfDay)) = angleBetweenClockHands (Some t).
Proof.
  cbv zeta. split; [reflexivity | split; [reflexivity | ] ].
  apply (proj1 (angleBetweenClockHands_half_day 1459825380000
                  ltac:(vm_compute; discriminate)
                  ltac:(vm_compute; discriminate))).
  vm_compute. discriminate.
Defined.

Lemma minute_fields (t : Z) :
  Time.HourFromTime (t - t mod Time.msPerMinute) = Time.HourFromTime t
  /\ Time.MinFromTime (t - t mod Time.msPerMinute) = Time.MinFromTime t
  /\ (Z.abs t <= Time.maxTime -> Z.abs (t - t mod Time.msPerMinute) <= Time.maxTime).
Proof.
  unfold Time.HourFromTime, Time.MinFromTime, Time.msPerHour, Time.msPerMinute,
    Time.maxTime. repeat split; divmod.
Qed.

(** X5.  The seconds and the milliseconds of the date do not move the
    hands: the angle is the one of the start of the minute. *)
Theorem angleBetweenClockHands_whole_minute (t : Z) :
  Z.abs t <= Time.maxTime ->
  angleBetweenClockHands (Some t)
  = angleBetweenClockHands (Some (t - t mod Time.msPerMinute)).
Proof.
  intros Ht. destruct (minute_fields t) as [Hh [Hm Hr]].
  rewrite !angleBetweenClockHands_angleOf by auto.
  rewrite Hh, Hm. reflexivity.
Qed.

Lemma angleBetweenClockHands_whole_minute_witness :
  angleBetweenClockHands (Some 1459825419999)
  = angleBetweenClockHands (Some 1459825380000).
Proof.
  exact (angleBetweenClockHands_whole_minute 1459825419999
           ltac:(vm_compute; discriminate)).
Defined.

Lemma eqb_true_leibniz (x y : float) (b : bool) :
  Bool.eqb (PrimFloat.Leibniz.eqb x y) b = true -> (x = y <-> b = true).
Proof.
  intros H. apply Bool.eqb_prop in H. rewrite <- H.
  symmetry. apply FloatAxioms.Leibniz.eqb_spec.
Qed.

(** X6.  The angle is 0 at 00:00 and 12:00 UTC and at no other minute, and
    [Math.PI] at 06:00 and 18:00 UTC and at no other minute. *)
Theorem angleBetweenClockHands_extremes (t : Z) :
  Z.abs t <= Time.maxTime ->
  let h := Time.HourFromTime t in
  let m := Time.MinFromTime t in
  (angleBetweenClockHands (Some t) = 0%float <-> h mod 12 = 0 /\ m = 0)
  /\ (angleBetweenClockHands (Some t) = Math_PI <-> h mod 12 = 6 /\ m = 0).
Proof.
  intros Ht h m. rewrite angleBetweenClockHands_angleOf by exact Ht. fold h m.
  pose proof (everyMinute_sound _ extremesAt_all h m (HourFromTime_range t)
                (MinFromTime_range t)) as H.
  unfold extremesAt in H. apply andb_true_iff in H. destruct H as [H0 Hpi].
  apply eqb_true_leibniz in H0. apply eqb_true_leibniz in Hpi.
  rewrite H0, Hpi, !andb_true_iff, !Z.eqb_eq. split; reflexivity.
Qed.

Lemma angleBetweenClockHands_extremes_witness :
  let t := 1459879200000 in
  Time.HourFromTime t = 18 /\ Time.MinFromTime t = 0
  /\ angleBetweenClockHands (Some t) = Math_PI.
Proof.
  cbv zeta. split; [reflexivity | split; [reflexivity | ] ].
  apply (proj2 (proj2 (angleBetweenClockHands_extremes 1459879200000
                         ltac:(vm_compute; discriminate)))).
  split; reflexivity.
Defined.

(** The source's test on the year is the one of the calendar of [Date]. *)
Lemma isLeapYear_isLeap (H : Host) (t : Z) :
  isLeapYear (Some t) = Time.isLeap (Time.YearFromTime (LocalTime t)).
Proof.
  unfold isLeapYear. cbn [getFullYear option_map].
  rewrite !strictEq_rem_zero by discriminate. unfold Time.isLeap.
  destruct (_ mod 400 =? 0) eqn:E400; destruct (_ mod 100 =? 0) eqn:E100;
    destruct (_ mod 4 =? 0) eqn:E4; cbn; try reflexivity;
    apply Z.eqb_eq in E400; apply Z.eqb_neq in E4; exfalso; divmod.
Qed.

Lemma february29 (y : Z) :
  let t := Time.MakeDate (Time.MakeDay y 1 29) 0 in
  Time.YearFromTime t = y
  /\ Time.MonthFromTime t = (if Time.isLeap y then 1 else 2)
  /\ Time.DateFromTime t = (if Time.isLeap y then 29 else 1).
Proof.
  intros t.
  assert (Hday : Time.Day t = Time.DayFromYear y + 59).
  { unfold t, Time.MakeDate, Time.Day, Time.MakeDay.
    change (1 / 12) with 0. change (1 mod 12) with 1. cbn [Time.monthStart].
    rewrite Z.add_0_r, Z.add_0_r. rewrite Z.div_mul by discriminate. lia. }
  assert (Hy : Time.YearFromTime t = y).
  { unfold Time.YearFromTime. rewrite Hday. apply TimeFacts.YearFromDay_unique.
    rewrite TimeFacts.DayFromYear_succ. unfold Time.DaysInYear.
    destruct (Time.isLeap y); lia. }
  assert (Hd : Time.DayWithinYear t = 59).
  { unfold Time.DayWithinYear. rewrite Hy, Hday. lia. }
  split; [exact Hy | ].
  unfold Time.DateFromTime, Time.MonthFromTime, Time.InLeapYear.
  rewrite Hd, Hy. destruct (Time.isLeap y); split; reflexivity.
Qed.

(** X3.  The source agrees with the calendar of [Date]: it answers true
    exactly when the local year of the date has 366 days, which is exactly
    when the 29th of February of that year is a day of February; and false
    exactly when the year has 365 days. *)
Theorem isLeapYear_february (H : Host) (t : Z) :
  let Y := Time.YearFromTime (LocalTime t) in
  (isLeapYear (Some t) = true
   <-> Time.DayFromYear (Y + 1) - Time.DayFromYear Y = 366)
  /\ (isLeapYear (Some t) = true
      <-> getUTCMonth (Some (Time.MakeDate (Time.MakeDay Y 1 29) 0)) = Some 1)
  /\ (isLeapYear (Some t) = false
      <-> Time.DayFromYear (Y + 1) - Time.DayFromYear Y = 365).
Proof.
  intros Y. rewrite (isLeapYear_isLeap H t). fold Y.
  rewrite TimeFacts.DayFromYear_succ. unfold Time.DaysInYear.
  destruct (february29 Y) as [_ [Hm _]]. cbn [getUTCMonth option_map].
  rewrite Hm. destruct (Time.isLeap Y); repeat split; intros E;
    try reflexivity; try discriminate; try lia.
Qed.

(** ** The parsers, again *)

Section Quirk.
Import Time.

Lemma monthStart_date (m dt l : Z) :
  0 <= m <= 11 -> 1 <= dt <= 31 -> 0 <= l <= 1 ->
  0 <= monthStart m l + dt - 1 < 365 + l.
Proof.
  intros Hm Hd Hl.
  assert (Hc : m = 0 \/ m = 1 \/ m = 2 \/ m = 3 \/ m = 4 \/ m = 5 \/ m = 6
               \/ m = 7 \/ m = 8 \/ m = 9 \/ m = 10 \/ m = 11) by lia.
  repeat (destruct Hc as [-> | Hc]); try rewrite Hc; cbn [monthStart]; lia.
Qed.

Lemma isLeap_century (y : Z) : 1 <= y <= 99 -> isLeap (1900 + y) = isLeap y.
Proof.
  intros Hy. unfold isLeap.
  destruct (Z.eqb_spec ((1900 + y) mod 4) 0); destruct (Z.eqb_spec (y mod 4) 0);
    destruct (Z.eqb_spec ((1900 + y) mod 100) 0);
    destruct (Z.eqb_spec (y mod 100) 0);
    destruct (Z.eqb_spec ((1900 + y) mod 400) 0);
    destruct (Z.eqb_spec (y mod 400) 0); cbn [negb]; try reflexivity;
    exfalso; divmod.
Qed.

(** The day and the time of day of a date made of fields in their bounds. *)
Lemma MakeDate_fields (d h mi s : Z) :
  0 <= h < 24 -> 0 <= mi < 60 -> 0 <= s < 60 ->
  let r := MakeDate d (MakeTime h mi s 0) in
  Day r = d /\ HourFromTime r = h /\ MinFromTime r = mi /\ SecFromTime r = s.
Proof.
  intros Hh Hmi Hs. cbv zeta.
  unfold Day, HourFromTime, MinFromTime, SecFromTime, MakeDate, MakeTime,
    msPerDay, msPerHour, msPerMinute, msPerSecond.
  repeat split; divmod.
Qed.

(** The date that the source rebuilds from a date of one of the years 0 to
    99. *)
Lemma rebuilt_near (t : Z) :
  0 <= YearFromTime t <= 99 ->
  YearFromTime (rebuilt t) = 1900 + YearFromTime t
  /\ HourFromTime (rebuilt t) = HourFromTime t
  /\ MinFromTime (rebuilt t) = MinFromTime t
  /\ SecFromTime (rebuilt t) = SecFromTime t
  /\ (YearFromTime t <> 0 ->
      MonthFromTime (rebuilt t) = MonthFromTime t
      /\ DateFromTime (rebuilt t) = DateFromTime t).
Proof.
  intros Hy. unfold rebuilt. rewrite fullYear_near by exact Hy.
  pose proof (TimeFacts.MonthFromTime_range t) as Hm.
  pose proof (TimeFacts.DateFromTime_range t) as Hd.
  destruct (MakeDate_fields
              (MakeDay (1900 + YearFromTime t) (MonthFromTime t) (DateFromTime t))
              _ _ _ (HourFromTime_range t) (MinFromTime_range t)
              (SecFromTime_range t)) as [Hday [Hh [Hmi Hs]]].
  set (r := MakeDate _ _) in *.
  assert (HD : Day r = DayFromYear (1900 + YearFromTime t)
                       + (monthStart (MonthFromTime t)
                            (if isLeap (1900 + YearFromTime t) then 1 else 0)
                          + DateFromTime t - 1)).
  { rewrite Hday. unfold MakeDay.
    replace (MonthFromTime t / 12) with 0 by divmod.
    replace (MonthFromTime t mod 12) with (MonthFromTime t) by divmod.
    rewrite Z.add_0_r. lia. }
  pose proof (monthStart_date (MonthFromTime t) (DateFromTime t)
                (if isLeap (1900 + YearFromTime t) then 1 else 0) Hm Hd
                ltac:(destruct (isLeap _); lia)) as Hin.
  assert (Hyr : YearFromTime r = 1900 + YearFromTime t).
  { unfold YearFromTime at 1. apply TimeFacts.YearFromDay_unique.
    rewrite TimeFacts.DayFromYear_succ, HD. unfold DaysInYear.
    destruct (isLeap (1900 + YearFromTime t)); lia. }
  repeat split; try assumption.
  - unfold MonthFromTime at 1. unfold DayWithinYear, InLeapYear.
    rewrite Hyr, HD, isLeap_century by lia.
    unfold MonthFromTime at 2. unfold InLeapYear. f_equal.
    unfold DateFromTime, MonthFromTime, InLeapYear. lia.
  - unfold DateFromTime at 1. unfold MonthFromTime at 1.
    unfold DayWithinYear at 1 2, InLeapYear.
    rewrite Hyr, HD, isLeap_century by lia.
    assert (E : DayFromYear (1900 + YearFromTime t)
                + (monthStart (MonthFromTime t) (if isLeap (YearFromTime t) then 1 else 0)
                   + DateFromTime t - 1) - DayFromYear (1900 + YearFromTime t)
                = DayWithinYear t).
    { unfold DateFromTime, MonthFromTime, InLeapYear. lia. }
    rewrite E. reflexivity.
Qed.

Lemma second_year (t : Z) : YearFromTime (t - t mod 1000) = YearFromTime t.
Proof.
  unfold YearFromTime. f_equal. unfold Day, msPerDay. divmod.
Qed.

(** What the source rebuilds is a date that it rebuilds as it is. *)
Lemma rebuilt_fixed (t : Z) : rebuilt (rebuilt t) = rebuilt t.
Proof.
  assert (Hy : ~ (0 <= YearFromTime (rebuilt t) <= 99)).
  { destruct (Z.le_gt_cases 0 (YearFromTime t)) as [H0 | H0];
      [destruct (Z.le_gt_cases (YearFromTime t) 99) as [H99 | H99] | ].
    - destruct (rebuilt_near t ltac:(lia)) as [E _]. lia.
    - rewrite rebuilt_truncates, second_year by lia. lia.
    - rewrite rebuilt_truncates, second_year by lia. lia. }
  rewrite (rebuilt_truncates (rebuilt t) Hy), rebuilt_thousand. lia.
Qed.

End Quirk.

(** X7.  A string that [new Date] reads as a date of one of the UTC years
    0 to 99 does not come back as that date: [Date.UTC] takes such a year
    for 1900 to 1999, so the result lies in the year 1900 + y, at the same
    time of day, and on the same day of the same month when y is not 0. *)
Theorem parseDataFromRfc2822_two_digit_year (H : Host) (s : string) (t : Z) :
  Date_ofString s = Some t -> 0 <= Time.YearFromTime t <= 99 ->
  exists r,
    parseDataFromRfc2822 s = Some r
    /\ Time.YearFromTime r = 1900 + Time.YearFromTime t
    /\ Time.HourFromTime r = Time.HourFromTime t
    /\ Time.MinFromTime r = Time.MinFromTime t
    /\ Time.SecFromTime r = Time.SecFromTime t
    /\ (Time.YearFromTime t <> 0 ->
        Time.MonthFromTime r = Time.MonthFromTime t
        /\ Time.DateFromTime r = Time.DateFromTime t).
Proof.
  intros E Hy. exists (rebuilt t). split.
  - apply parseDataFromRfc2822_some, E.
  - apply rebuilt_near, Hy.
Qed.

Lemma parseDataFromRfc2822_two_digit_year_witness :
  let H := plainHost in
  Date_ofString "0050-06-01T12:30:00.123Z" = Some (-60576204599877)
  /\ parseDataFromRfc2822 "0050-06-01T12:30:00.123Z" = Some (-618060600000)
  /\ Format.toISOString (-618060600000) = "1950-06-01T12:30:00.000Z"
  /\ exists r, parseDataFromRfc2822 "0050-06-01T12:30:00.123Z" = Some r
               /\ Time.YearFromTime r = 1900 + Time.YearFromTime (-60576204599877).
Proof.
  cbv zeta. split; [reflexivity | split; [reflexivity | split; [reflexivity | ] ] ].
  destruct (parseDataFromRfc2822_two_digit_year plainHost
              "0050-06-01T12:30:00.123Z" (-60576204599877) eq_refl
              ltac:(vm_compute; split; discriminate)) as [r [Hr [Hy _]]].
  exists r. split; [exact Hr | exact Hy].
Defined.

(** X8.  The two functions compose: what [parseDataFromRfc2822] makes of
    the ISO text of the date that [parseDataFromIso8601] returns is what
    it makes of the string itself. *)
Theorem parsers_compose (H : Host) (s : string) (t : Z) :
  parseDataFromIso8601 s = Some t ->
  parseDataFromRfc2822 (Format.toISOString t) = parseDataFromRfc2822 s.
Proof.
  intros E. pose proof (Date_parse_valid H s t E) as Ht.
  rewrite (parseDataFromRfc2822_some H s t E).
  apply parseDataFromRfc2822_some. apply Date_parse_toISOString, Ht.
Qed.

Lemma parsers_compose_witness :
  let H := plainHost in
  parseDataFromRfc2822 (Format.toISOString 1453219657123)
  = parseDataFromRfc2822 "2016-01-19T16:07:37.123+00:00".
Proof.
  exact (parsers_compose plainHost "2016-01-19T16:07:37.123+00:00"
           1453219657123 eq_refl).
Defined.

(** X9.  A result of [parseDataFromRfc2822] is stable: printed by
    [toISOString] and read again, by either function, it is itself. *)
Theorem parseDataFromRfc2822_stable (H : Host) (s : string) (r : Z) :
  parseDataFromRfc2822 s = Some r ->
  parseDataFromRfc2822 (Format.toISOString r) = Some r
  /\ parseDataFromIso8601 (Format.toISOString r) = Some r.
Proof.
  intros E. destruct (Date_ofString s) as [t | ] eqn:Et.
  - rewrite (parseDataFromRfc2822_some H s t Et) in E. injection E as <-.
    assert (Hr : Z.abs (rebuilt t) <= Time.maxTime)
      by (apply rebuilt_range, (Date_parse_valid H s t Et)).
    pose proof (Date_parse_toISOString H (rebuilt t) Hr) as Hp.
    split; [ | exact Hp].
    rewrite (parseDataFromRfc2822_some H _ _ Hp), rebuilt_fixed. reflexivity.
  - rewrite (parseDataFromRfc2822_nan H s Et) in E. discriminate E.
Qed.

Lemma parseDataFromRfc2822_stable_witness :
  let H := plainHost in
  parseDataFromRfc2822 (Format.toISOString 1453816082000) = Some 1453816082000.
Proof.
  exact (proj1 (parseDataFromRfc2822_stable plainHost
                  "Tue, 26 Jan 2016 13:48:02 GMT" 1453816082000 eq_refl)).
Defined.

Lemma isoDate_text (y m d : Z) (r : string) :
  -999999 <= y <= 999999 -> 0 <= m < 100 -> 0 <= d < 100 ->
  Text.startsWith "-" r = false ->
  Parse.isoDate (Format.isoYear y ++ "-" ++ Text.fixed 2 m ++ "-"
                   ++ Text.fixed 2 d ++ r)
  = Some (y, m, d, r).
Proof.
  intros Hy Hm Hd Hr. unfold Parse.isoDate.
  rewrite isoYear_format by exact Hy. rewrite str_cons.
  rewrite optField_fixed by fits. rewrite str_cons.
  rewrite optField_fixed by fits. reflexivity.
Qed.

(** A date alone is read as the start of that day in UTC, on every host. *)
Lemma Date_parse_isoDateText (H : Host) (l : Z) :
  Z.abs l <= Time.maxTime -> l mod Time.msPerDay = 0 ->
  Date_parse (isoDateText l) = Some l.
Proof.
  intros Hl Hday.
  pose proof (TimeFacts.YearFromTime_range l Hl) as Hy.
  pose proof (TimeFacts.MonthFromTime_range l) as Hm.
  pose proof (TimeFacts.DateFromTime_range l) as Hd.
  unfold Date_parse, isoDateText, Parse.isoFields.
  rewrite <- (fixed_nil 2 (Time.DateFromTime l)).
  rewrite isoDate_text by (try reflexivity; lia).
  cbn [String.eqb].
  assert (Hlegal : Parse.legal
                     {| Parse.year := Time.YearFromTime l;
                        Parse.month := Time.MonthFromTime l + 1;
                        Parse.day := Time.DateFromTime l;
                        Parse.time := None; Parse.offset := None |} = true).
  { unfold Parse.legal. cbn [Parse.month Parse.day Parse.time].
    repeat (apply andb_true_iff; split); try reflexivity; apply Z.leb_le; lia. }
  rewrite Hlegal. unfold Parse.timeOf.
  cbn [Parse.year Parse.month Parse.day Parse.time].
  replace (Time.MonthFromTime l + 1 - 1) with (Time.MonthFromTime l) by lia.
  rewrite TimeFacts.MakeDay_fields.
  replace (Time.MakeDate (Time.Day l) 0) with l.
  - apply TimeClip_valid, Hl.
  - unfold Time.MakeDate, Time.Day, Time.msPerDay in *. divmod.
Qed.

(** A date and a time with no offset are read as a local time. *)
Lemma Date_parse_isoLocalText (H : Host) (l : Z) :
  Z.abs l <= Time.maxTime ->
  Date_parse (isoLocalText l) = Time.TimeClip (l - LocalTZA l false).
Proof.
  intros Hl. unfold Date_parse, isoLocalText.
  rewrite <- (fixed_nil 3 (Time.msFromTime l)).
  rewrite (isoFields_format l "" None)
    by (try reflexivity; unfold Time.msPerDay; lia).
  destruct (timeOf_fields H l 0) as [Hlegal _].
  unfold Parse.legal in *. cbn [Parse.month Parse.day Parse.time] in *.
  rewrite Hlegal. unfold Parse.timeOf.
  cbn [Parse.year Parse.month Parse.day Parse.time Parse.offset].
  replace (Time.MonthFromTime l + 1 - 1) with (Time.MonthFromTime l) by lia.
  rewrite TimeFacts.MakeDay_fields, TimeFacts.time_fields. reflexivity.
Qed.

(** X10.  A string with a date and a time but no offset is read as a local
    time: its instant is the one of the fields less the host's offset, so
    it changes with the host.  A string with a date alone is read as the
    start of that day in UTC on every host. *)
Theorem parseDataFromIso8601_no_offset (H : Host) (l : Z) :
  Z.abs l <= Time.maxTime ->
  parseDataFromIso8601 (isoLocalText l) = Time.TimeClip (l - LocalTZA l false)
  /\ (l mod Time.msPerDay = 0 ->
      parseDataFromIso8601 (isoDateText l) = Some l).
Proof.
  intros Hl. split.
  - apply Date_parse_isoLocalText, Hl.
  - intros Hday. apply Date_parse_isoDateText; assumption.
Qed.

Lemma parseDataFromIso8601_no_offset_witness :
  let l := 1453190857000 in
  isoLocalText l = "2016-01-19T08:07:37.000"
  /\ parseDataFromIso8601 (H := zoneHost 3600000) "2016-01-19T08:07:37.000"
     = Some (l - 3600000)
  /\ parseDataFromIso8601 (H := plainHost) "2016-01-19T08:07:37.000" = Some l
  /\ parseDataFromIso8601 (H := zoneHost 3600000) (isoLocalText l)
     = Time.TimeClip (l - 3600000).
Proof.
  cbv zeta. split; [reflexivity | split; [reflexivity | split; [reflexivity | ] ] ].
  exact (proj1 (parseDataFromIso8601_no_offset (zoneHost 3600000) 1453190857000
                  ltac:(vm_compute; discriminate))).
Defined.
